(** * Laboral/agent.py: intake and triage of labor cases

    Shallow embedding of the case store, the narrative classifier and the
    ten tool functions of [src/Laboral/agent.py].

    Conventions of the embedding.
    - A Python [str] is held as its UTF-8 encoding in a [string]; equality,
      concatenation, emptiness and the substring test [in] agree on both
      views (UTF-8 is self-synchronising).
    - [Optional[str]] is [option string]; Python truthiness ([x or d],
      [if x], [not x]) is [truthy]: [None] and the empty string are falsy.
    - [str.upper] and [str.lower] follow the Unicode case tables of the
      Python runtime; they are section variables, so every statement holds
      for whatever these two functions are.
    - [CASE_DB] is a [gmap string CaseRecord] passed in and returned by every
      tool; a tool returns the [dict] it builds together with the new store.
    - [datetime.utcnow()] is read twice when a [CaseRecord] is built; the
      two readings are an argument [ts] of the tools that may build one. *)

From Stdlib Require Import Ascii NArith Bool.
From stdpp Require Import base option list gmap strings fin_maps.

(** ** Python strings *)

Module PyStr.

Definition nl : string := String (ascii_of_nat 10) EmptyString.
Definition sp : ascii := ascii_of_nat 32.

(** U+00A0 (no-break space) and U+2003 (em space), as encoded. *)
Definition nbsp : string :=
  String (ascii_of_nat 194) (String (ascii_of_nat 160) EmptyString).
Definition em_space : string :=
  String (ascii_of_nat 226) (String (ascii_of_nat 128) (String (ascii_of_nat 131) EmptyString)).

(** [bool(s)] for an [Optional[str]]. *)
Definition truthy (o : option string) : bool :=
  match o with
  | None => false
  | Some EmptyString => false
  | Some (String _ _) => true
  end.

(** [o or d] with a string default. *)
Definition or_str (o : option string) (d : string) : string :=
  match o with
  | Some (String a r) => String a r
  | _ => d
  end.

(** [sep.join(l)]. *)
Definition join (sep : string) (l : list string) : string := String.concat sep l.

(** [s in t]: [s] occurs in [t] as a contiguous substring. *)
Fixpoint str_in (s t : string) : bool :=
  String.prefix s t ||
  match t with
  | EmptyString => false
  | String _ r => str_in s r
  end.

(** [s] occurs in [t]: the relation that [str_in] decides. *)
Definition occurs (s t : string) : Prop :=
  exists pre post, t = pre +:+ s +:+ post.

(** Byte length of the white-space code point that starts [s], 0 when [s]
    does not start with one. White space is what [str.isspace] and the
    pattern class [\s] accept: U+0009..U+000D, U+001C..U+0020, U+0085,
    U+00A0, U+1680, U+2000..U+200A, U+2028, U+2029, U+202F, U+205F, U+3000. *)
Definition ws3 (b0 b1 b2 : N) : bool :=
  ((b0 =? 225) && (b1 =? 154) && (b2 =? 128))%N
  || ((b0 =? 226) && (b1 =? 128)
      && (((128 <=? b2) && (b2 <=? 138)) || (b2 =? 168) || (b2 =? 169) || (b2 =? 175)))%N
  || ((b0 =? 226) && (b1 =? 129) && (b2 =? 159))%N
  || ((b0 =? 227) && (b1 =? 128) && (b2 =? 128))%N.

Definition ws_len (s : string) : nat :=
  match s with
  | EmptyString => 0
  | String a0 r0 =>
    let b0 := N_of_ascii a0 in
    if (((9 <=? b0) && (b0 <=? 13)) || ((28 <=? b0) && (b0 <=? 32)))%N then 1
    else
      match r0 with
      | EmptyString => 0
      | String a1 r1 =>
        let b1 := N_of_ascii a1 in
        if (b0 =? 194)%N then (if ((b1 =? 133) || (b1 =? 160))%N then 2 else 0)
        else
          match r1 with
          | EmptyString => 0
          | String a2 _ => if ws3 b0 b1 (N_of_ascii a2) then 3 else 0
          end
      end
  end.

(** [s.lstrip()]; [skip] counts the bytes still to drop of the white-space
    code point being removed. *)
Fixpoint lstrip_from (skip : nat) (s : string) : string :=
  match s with
  | EmptyString => EmptyString
  | String a r =>
    match skip with
    | S k => lstrip_from k r
    | O =>
      match ws_len s with
      | O => s
      | S w => lstrip_from w r
      end
    end
  end.

Definition lstrip (s : string) : string := lstrip_from 0 s.

Definition all_ws (s : string) : bool :=
  match lstrip s with
  | EmptyString => true
  | String _ _ => false
  end.

(** [s.rstrip()]: cut at the first position from which only white space
    follows. *)
Fixpoint rstrip (s : string) : string :=
  match s with
  | EmptyString => EmptyString
  | String a r => if all_ws s then EmptyString else String a (rstrip r)
  end.

(** [s.strip()]. *)
Definition strip (s : string) : string := rstrip (lstrip s).

(** [re.sub(r"\s+", " ", s)]: every maximal run of white space becomes one
    space. [in_run] says that the previous code point was white space, for
    which the space has been written already. *)
Fixpoint sub_ws_from (skip : nat) (in_run : bool) (s : string) : string :=
  match s with
  | EmptyString => EmptyString
  | String a r =>
    match skip with
    | S k => sub_ws_from k in_run r
    | O =>
      match ws_len s with
      | O => String a (sub_ws_from 0 false r)
      | S w => if in_run then sub_ws_from w true r
               else String sp (sub_ws_from w true r)
      end
    end
  end.

Definition sub_ws (s : string) : string := sub_ws_from 0 false s.

(** Case mappings restricted to the ASCII letters. They agree with
    [str.upper] and [str.lower] on text whose cased letters are ASCII, and
    serve to run the tools on such text. *)
Definition ascii_up (a : ascii) : ascii :=
  let n := N_of_ascii a in
  if ((97 <=? n) && (n <=? 122))%N then ascii_of_N (n - 32) else a.

Definition ascii_low (a : ascii) : ascii :=
  let n := N_of_ascii a in
  if ((65 <=? n) && (n <=? 90))%N then ascii_of_N (n + 32) else a.

Fixpoint map_bytes (f : ascii -> ascii) (s : string) : string :=
  match s with
  | EmptyString => EmptyString
  | String a r => String (f a) (map_bytes f r)
  end.

Definition upper_ascii : string -> string := map_bytes ascii_up.
Definition lower_ascii : string -> string := map_bytes ascii_low.

End PyStr.

Import PyStr.

(** ** Data model *)

(** [class CaseState(str, Enum)]; [state_value] is the member's [.value]. *)
Inductive CaseState :=
| RECEIVED
| DETAILS_CAPTURED
| DOCS_REQUESTED
| DOCS_RECEIVED
| VALIDATED
| PRE_CLASSIFIED
| EXPEDIENTE_GENERATED
| HANDOFF_TO_HUMAN.

Definition state_value (st : CaseState) : string :=
  match st with
  | RECEIVED => "RECEIVED"
  | DETAILS_CAPTURED => "DETAILS_CAPTURED"
  | DOCS_REQUESTED => "DOCS_REQUESTED"
  | DOCS_RECEIVED => "DOCS_RECEIVED"
  | VALIDATED => "VALIDATED"
  | PRE_CLASSIFIED => "PRE_CLASSIFIED"
  | EXPEDIENTE_GENERATED => "EXPEDIENTE_GENERATED"
  | HANDOFF_TO_HUMAN => "HANDOFF_TO_HUMAN"
  end.

(** [@dataclass DocumentChecklistItem]. *)
Module DocumentChecklistItem.
Record t := mk {
  doc : string;
  requerido : bool;
  recibido : bool;
  nota : option string
}.
(** [DocumentChecklistItem(doc=d)] with the declared defaults. *)
Definition new (d : string) : t := mk d false false None.
Definition set_recibido (v : bool) (i : t) : t := mk (doc i) (requerido i) v (nota i).
Definition set_nota (v : option string) (i : t) : t := mk (doc i) (requerido i) (recibido i) v.
End DocumentChecklistItem.

(** [@dataclass CaseData]. *)
Module CaseData.
Record t := mk {
  nombre : option string;
  dui : option string;
  contacto : option string;
  empleador_nombre : option string;
  cargo : option string;
  salario_monto : option string;
  salario_periodicidad : option string;
  fecha_inicio : option string;
  fecha_despido_ultimo_pago : option string;
  relato : option string;
  relato_extra : option string;
  pretension : option string;
  jurisdiccion_probable : option string;
  banderas : list string
}.
(** [CaseData()]. *)
Definition new : t :=
  mk None None None None None None None None None None None None None [].
Definition set_nombre v (d : t) : t :=
  let '(mk a b c e f g h i j k l m n o) := d in mk v b c e f g h i j k l m n o.
Definition set_dui v (d : t) : t :=
  let '(mk a b c e f g h i j k l m n o) := d in mk a v c e f g h i j k l m n o.
Definition set_contacto v (d : t) : t :=
  let '(mk a b c e f g h i j k l m n o) := d in mk a b v e f g h i j k l m n o.
Definition set_empleador_nombre v (d : t) : t :=
  let '(mk a b c e f g h i j k l m n o) := d in mk a b c v f g h i j k l m n o.
Definition set_cargo v (d : t) : t :=
  let '(mk a b c e f g h i j k l m n o) := d in mk a b c e v g h i j k l m n o.
Definition set_salario_monto v (d : t) : t :=
  let '(mk a b c e f g h i j k l m n o) := d in mk a b c e f v h i j k l m n o.
Definition set_salario_periodicidad v (d : t) : t :=
  let '(mk a b c e f g h i j k l m n o) := d in mk a b c e f g v i j k l m n o.
Definition set_fecha_inicio v (d : t) : t :=
  let '(mk a b c e f g h i j k l m n o) := d in mk a b c e f g h v j k l m n o.
Definition set_fecha_despido_ultimo_pago v (d : t) : t :=
  let '(mk a b c e f g h i j k l m n o) := d in mk a b c e f g h i v k l m n o.
Definition set_relato v (d : t) : t :=
  let '(mk a b c e f g h i j k l m n o) := d in mk a b c e f g h i j v l m n o.
Definition set_relato_extra v (d : t) : t :=
  let '(mk a b c e f g h i j k l m n o) := d in mk a b c e f g h i j k v m n o.
Definition set_pretension v (d : t) : t :=
  let '(mk a b c e f g h i j k l m n o) := d in mk a b c e f g h i j k l v n o.
Definition set_jurisdiccion_probable v (d : t) : t :=
  let '(mk a b c e f g h i j k l m n o) := d in mk a b c e f g h i j k l m v o.
Definition set_banderas v (d : t) : t :=
  let '(mk a b c e f g h i j k l m n o) := d in mk a b c e f g h i j k l m n v.
End CaseData.

(** [@dataclass CaseRecord]. The checklist is the [Dict[str,
    DocumentChecklistItem]] of the record. *)
Module CaseRecord.
Record t := mk {
  case_id : string;
  state : CaseState;
  created_at : string;
  updated_at : string;
  data : CaseData.t;
  checklist : gmap string DocumentChecklistItem.t;
  expediente : option string
}.
(** [CaseRecord(case_id=cid)]; [ts] holds the two readings of
    [datetime.utcnow().isoformat() + "Z"] made by the default factories. *)
Definition new (ts : string * string) (cid : string) : t :=
  mk cid RECEIVED (fst ts) (snd ts) CaseData.new ∅ None.
Definition set_state v (c : t) : t :=
  mk (case_id c) v (created_at c) (updated_at c) (data c) (checklist c) (expediente c).
Definition set_data v (c : t) : t :=
  mk (case_id c) (state c) (created_at c) (updated_at c) v (checklist c) (expediente c).
Definition set_checklist v (c : t) : t :=
  mk (case_id c) (state c) (created_at c) (updated_at c) (data c) v (expediente c).
Definition set_expediente v (c : t) : t :=
  mk (case_id c) (state c) (created_at c) (updated_at c) (data c) (checklist c) v.
End CaseRecord.

(** The value of [HARDCODED_GENERAL_CASES] under one key: a dict whose only
    key is ["relato"]. *)
Record GeneralCase := { gc_relato : string }.

(** What the tools return: a Python [dict] with string keys, in insertion
    order. *)
#[local] Set Warnings "-register-all".
Inductive value :=
| VStr (s : string)
| VBool (b : bool)
| VList (l : list value)
| VDict (d : list (string * value)).

Definition dict := list (string * value).

(** [d.get(k)]. *)
Fixpoint dict_get (k : string) (d : dict) : option value :=
  match d with
  | [] => None
  | (k', v) :: r => if String.eqb k k' then Some v else dict_get k r
  end.

(** ** Constants *)

Definition HARDCODED_GENERAL_CASES : list (string * GeneralCase) :=
  [ ("LAB-0001",
     {| gc_relato :=
          "Trabajé como auxiliar de bodega. Me pagaban semanalmente. "
          +:+ "El empleador me dijo que ya no llegara y no me entregó carta de despido. "
          +:+ "Quedó pendiente el pago de la última semana." |});
    ("LAB-0002",
     {| gc_relato :=
          "Tuve un accidente en el trabajo y me dieron incapacidad. "
          +:+ "El empleador no quiso reconocer el incidente y me presionó para renunciar." |}) ].

(** [HARDCODED_GENERAL_CASES.get(cid)]. *)
Fixpoint general_get (cid : string) (l : list (string * GeneralCase)) : option GeneralCase :=
  match l with
  | [] => None
  | (k, v) :: r => if String.eqb cid k then Some v else general_get cid r
  end.

Definition DOCUMENTOS_BASE : list string :=
  [ "Contrato (si existe)";
    "Constancia salarial / colillas / transferencias";
    "Carta de despido (si existe)";
    "Afiliación AFP/ISSS (si aplica)";
    "Comprobantes de pago";
    "Planillas / boletas / transferencias";
    "Comunicación con empleador (WhatsApp/email) si existe";
    "Constancia médica (si aplica)";
    "Incapacidad (si existe)";
    "Reportes (si existen)" ].

Definition LABORAL_KEYWORDS : list string :=
  [ "empleador"; "salario"; "pago"; "despido"; "jornada";
    "prestaciones"; "contrato"; "trabaj"; "incapacidad"; "accidente" ].

Definition PENAL_SIGNALS : list string :=
  [ "amenaza de muerte"; "arma"; "secuestro"; "extorsión"; "agresión sexual" ].

Definition ROUTE_PENAL : string :=
  "PENAL (probable) — derivación sugerida, revisión humana obligatoria".
Definition ROUTE_LABORAL : string :=
  "LABORAL (probable) — pre-clasificación operativa, revisión humana final".
Definition ROUTE_REVISAR : string :=
  "REVISAR (humano) — información insuficiente para ruta operativa".

Definition MSG_NOT_FOUND : string := "case_id no encontrado.".
Definition MSG_NO_RELATO : string :=
  "No hay relato quemado para ese case_id (usa LAB-0001 o LAB-0002).".

Definition FLAG_PENAL : string :=
  "Señales de posible materia penal (solo derivación sugerida).".

(** [any(s in t for s in l)]. *)
Definition any_in (l : list string) (t : string) : bool :=
  existsb (fun s => str_in s t) l.

(** [{doc: DocumentChecklistItem(doc=doc) for doc in DOCUMENTOS_BASE}]; the
    same dict is built with [requerido=False, recibido=False] spelled out. *)
Definition base_items : list DocumentChecklistItem.t :=
  map DocumentChecklistItem.new DOCUMENTOS_BASE.

Definition base_checklist : gmap string DocumentChecklistItem.t :=
  list_to_map (map (fun i => (DocumentChecklistItem.doc i, i)) base_items).

(** ** The Case Operations API as one interface

    [op] is a call of one of the ten tools registered on [root_agent], with
    its arguments. *)
Inductive op :=
| Create_case (case_id : option string)
| Capture_identity (case_id dui nombre contacto : string)
| Pull_story_from_general (case_id : string)
| Add_more_info (case_id info_adicional : string)
| Capture_required_fields
    (case_id empleador_nombre cargo salario_monto salario_periodicidad
     fecha_inicio fecha_despido_ultimo_pago pretension : string)
| Request_documents (case_id : string)
| Mark_document (case_id doc_name : string) (existe : bool) (nota : option string)
| Validate_and_recheck (case_id : string)
| Generate_expediente (case_id : string)
| Handoff_to_human (case_id : string) (nota : option string).

(** The identifier a call passes, before normalisation: [case_id or
    "LAB-0001"] for [create_case], [case_id] for the other tools. *)
Definition op_case_id (o : op) : string :=
  match o with
  | Create_case i => or_str i "LAB-0001"
  | Capture_identity i _ _ _ => i
  | Pull_story_from_general i => i
  | Add_more_info i _ => i
  | Capture_required_fields i _ _ _ _ _ _ _ => i
  | Request_documents i => i
  | Mark_document i _ _ _ => i
  | Validate_and_recheck i => i
  | Generate_expediente i => i
  | Handoff_to_human i _ => i
  end.

(** The same call with another identifier. *)
Definition with_case_id (j : string) (o : op) : op :=
  match o with
  | Create_case _ => Create_case (Some j)
  | Capture_identity _ a b c => Capture_identity j a b c
  | Pull_story_from_general _ => Pull_story_from_general j
  | Add_more_info _ a => Add_more_info j a
  | Capture_required_fields _ a b c d e f g => Capture_required_fields j a b c d e f g
  | Request_documents _ => Request_documents j
  | Mark_document _ a b c => Mark_document j a b c
  | Validate_and_recheck _ => Validate_and_recheck j
  | Generate_expediente _ => Generate_expediente j
  | Handoff_to_human _ a => Handoff_to_human j a
  end.

(** The tools that address a record without creating it. *)
Definition requires_record (o : op) : bool :=
  match o with
  | Create_case _ | Capture_identity _ _ _ _ | Pull_story_from_general _ => false
  | _ => true
  end.

(** Two calls of the same tool with the same arguments, the identifier
    apart. *)
Definition same_call (o1 o2 : op) : Prop :=
  with_case_id "" o1 = with_case_id "" o2.

(** ** Sample inputs

    Concrete stores and records on which the statements below are run. *)

Definition sample_ts : string * string :=
  ("2025-03-01T09:00:00.000001Z", "2025-03-01T09:00:00.000002Z").

Definition later_ts : string * string :=
  ("2025-03-02T17:30:00.000001Z", "2025-03-02T17:30:00.000002Z").

Definition sample_record : CaseRecord.t := CaseRecord.new sample_ts "LAB-0001".

Definition sample_db : gmap string CaseRecord.t := {[ "LAB-0001" := sample_record ]}.

(** The same case as [sample_record], opened later and already handed off. *)
Definition sample_db_later : gmap string CaseRecord.t :=
  {[ "LAB-0001" :=
       CaseRecord.set_state HANDOFF_TO_HUMAN (CaseRecord.new later_ts "LAB-0001") ]}.

(** A store with a second case. *)
Definition sample_db_two : gmap string CaseRecord.t :=
  <["LAB-0002" := CaseRecord.new later_ts "LAB-0002"]> sample_db.

Definition sample_item : DocumentChecklistItem.t :=
  DocumentChecklistItem.mk "Comprobantes de pago" false true (Some "copia simple").

(** A record whose checklist was requested and one document marked with a
    note. *)
Definition sample_record_docs : CaseRecord.t :=
  CaseRecord.set_state DOCS_RECEIVED
    (CaseRecord.set_checklist
       (<["Comprobantes de pago" := sample_item]> base_checklist) sample_record).

Definition sample_db_docs : gmap string CaseRecord.t :=
  {[ "LAB-0001" := sample_record_docs ]}.

(** The guided flow on LAB-0001, from opening the case to the hand-off. *)
Definition guided_flow : list ((string * string) * op) :=
  [ (sample_ts, Create_case (Some "lab-0001"));
    (sample_ts, Pull_story_from_general "lab-0001");
    (sample_ts, Capture_identity "LAB-0001" "00000000-0" "Ana" "ana@x.com");
    (sample_ts, Capture_required_fields "LAB-0001" "Bodegas S.A." "Auxiliar de bodega"
                  "90" "semanal" "2023-01-10" "2024-05-03" "pago");
    (sample_ts, Request_documents "LAB-0001");
    (sample_ts, Mark_document "LAB-0001" "Comprobantes de pago" true None);
    (sample_ts, Validate_and_recheck "LAB-0001");
    (sample_ts, Generate_expediente "LAB-0001");
    (sample_ts, Handoff_to_human "LAB-0001" None) ].

(** ** The classifier and the tools *)

Section Agent.

#[local] Set Default Proof Using "Type".

(** [str.upper] and [str.lower] of the Python runtime. *)
Variable str_upper : string -> string.
Variable str_lower : string -> string.

(** [re.sub(r"\s+", " ", (text or "").strip().lower())]. *)
Definition _normalize (text : string) : string :=
  sub_ws (str_lower (strip (or_str (Some text) ""))).

Definition corresponde_a_laboral (relato_total : string) : bool :=
  let t := _normalize relato_total in
  if any_in PENAL_SIGNALS t then false
  else any_in LABORAL_KEYWORDS t.

Definition route_operativa (relato_total : string) : string :=
  let t := _normalize relato_total in
  if any_in PENAL_SIGNALS t then ROUTE_PENAL
  else if any_in LABORAL_KEYWORDS t then ROUTE_LABORAL
  else ROUTE_REVISAR.

(** The two shapes every tool returns on its plain paths. *)
Definition ok_result (cid : string) (st : CaseState) : dict :=
  [("status", VStr "ok"); ("case_id", VStr cid); ("state", VStr (state_value st))].

Definition error_result (msg : string) : dict :=
  [("status", VStr "error"); ("error_message", VStr msg)].

(** [if cid not in CASE_DB: CASE_DB[cid] = CaseRecord(case_id=cid)], then
    [CASE_DB[cid]]: the record addressed and the store that holds it. *)
Definition setdefault_record (ts : string * string) (cid : string)
    (db : gmap string CaseRecord.t) : CaseRecord.t * gmap string CaseRecord.t :=
  match db !! cid with
  | Some c => (c, db)
  | None => let c := CaseRecord.new ts cid in (c, <[cid := c]> db)
  end.

Definition create_case (ts : string * string) (case_id : option string)
    (db : gmap string CaseRecord.t) : dict * gmap string CaseRecord.t :=
  let cid := str_upper (or_str case_id "LAB-0001") in
  let '(c, db) := setdefault_record ts cid db in
  (ok_result cid (CaseRecord.state c), db).

Definition capture_identity (ts : string * string) (case_id dui nombre contacto : string)
    (db : gmap string CaseRecord.t) : dict * gmap string CaseRecord.t :=
  let cid := str_upper case_id in
  let '(c, db) := setdefault_record ts cid db in
  let d := CaseData.set_dui (Some dui) (CaseRecord.data c) in
  let d := CaseData.set_nombre (Some nombre) d in
  let d := CaseData.set_contacto (Some contacto) d in
  let c := CaseRecord.set_data d c in
  let c := CaseRecord.set_state DETAILS_CAPTURED c in
  (ok_result cid (CaseRecord.state c), <[cid := c]> db).

Definition pull_story_from_general (ts : string * string) (case_id : string)
    (db : gmap string CaseRecord.t) : dict * gmap string CaseRecord.t :=
  let cid := str_upper case_id in
  let '(c, db) := setdefault_record ts cid db in
  match general_get cid HARDCODED_GENERAL_CASES with
  | None => (error_result MSG_NO_RELATO, db)
  | Some hard =>
    let d := CaseData.set_relato (Some (gc_relato hard)) (CaseRecord.data c) in
    let c := CaseRecord.set_data d c in
    let c := CaseRecord.set_state DETAILS_CAPTURED c in
    ([ ("status", VStr "ok");
       ("case_id", VStr cid);
       ("formato",
        VDict [ ("nombre_persona", VStr (or_str (CaseData.nombre d) "N/D"));
                ("dui", VStr (or_str (CaseData.dui d) "N/D"));
                ("relato", VStr (gc_relato hard)) ]);
       ("state", VStr (state_value (CaseRecord.state c))) ],
     <[cid := c]> db)
  end.

Definition add_more_info (case_id info_adicional : string)
    (db : gmap string CaseRecord.t) : dict * gmap string CaseRecord.t :=
  let cid := str_upper case_id in
  match db !! cid with
  | None => (error_result MSG_NOT_FOUND, db)
  | Some c =>
    let d := CaseData.set_relato_extra (Some info_adicional) (CaseRecord.data c) in
    let c := CaseRecord.set_data d c in
    let c := CaseRecord.set_state DETAILS_CAPTURED c in
    (ok_result cid (CaseRecord.state c), <[cid := c]> db)
  end.

Definition capture_required_fields
    (case_id empleador_nombre cargo salario_monto salario_periodicidad
     fecha_inicio fecha_despido_ultimo_pago pretension : string)
    (db : gmap string CaseRecord.t) : dict * gmap string CaseRecord.t :=
  let cid := str_upper case_id in
  match db !! cid with
  | None => (error_result MSG_NOT_FOUND, db)
  | Some c =>
    let d := CaseRecord.data c in
    let d := CaseData.set_empleador_nombre (Some empleador_nombre) d in
    let d := CaseData.set_cargo (Some cargo) d in
    let d := CaseData.set_salario_monto (Some salario_monto) d in
    let d := CaseData.set_salario_periodicidad (Some salario_periodicidad) d in
    let d := CaseData.set_fecha_inicio (Some fecha_inicio) d in
    let d := CaseData.set_fecha_despido_ultimo_pago (Some fecha_despido_ultimo_pago) d in
    let d := CaseData.set_pretension (Some pretension) d in
    let c := CaseRecord.set_data d c in
    let c := CaseRecord.set_state DETAILS_CAPTURED c in
    (ok_result cid (CaseRecord.state c), <[cid := c]> db)
  end.

Definition request_documents (case_id : string)
    (db : gmap string CaseRecord.t) : dict * gmap string CaseRecord.t :=
  let cid := str_upper case_id in
  match db !! cid with
  | None => (error_result MSG_NOT_FOUND, db)
  | Some c =>
    let c := CaseRecord.set_checklist base_checklist c in
    let c := CaseRecord.set_state DOCS_REQUESTED c in
    ([ ("status", VStr "ok");
       ("case_id", VStr cid);
       ("documentos_base",
        VList (map (fun i => VDict [ ("doc", VStr (DocumentChecklistItem.doc i));
                                     ("recibido", VBool (DocumentChecklistItem.recibido i)) ])
                   base_items));
       ("state", VStr (state_value (CaseRecord.state c)));
       ("nota", VStr "No son obligatorios, pero se solicitan si existen.") ],
     <[cid := c]> db)
  end.

Definition mark_document (case_id doc_name : string) (existe : bool) (nota : option string)
    (db : gmap string CaseRecord.t) : dict * gmap string CaseRecord.t :=
  let cid := str_upper case_id in
  match db !! cid with
  | None => (error_result MSG_NOT_FOUND, db)
  | Some c =>
    let chk := if decide (CaseRecord.checklist c = ∅) then base_checklist
               else CaseRecord.checklist c in
    let item := default (DocumentChecklistItem.new doc_name) (chk !! doc_name) in
    let item := DocumentChecklistItem.set_recibido existe item in
    let item := if truthy nota then DocumentChecklistItem.set_nota nota item else item in
    let chk := <[doc_name := item]> chk in
    let c := CaseRecord.set_checklist chk c in
    let c := CaseRecord.set_state DOCS_RECEIVED c in
    ([ ("status", VStr "ok");
       ("case_id", VStr cid);
       ("doc", VStr doc_name);
       ("existe", VBool existe);
       ("state", VStr (state_value (CaseRecord.state c))) ],
     <[cid := c]> db)
  end.

(** [(d.relato or "") + ("\n" + d.relato_extra if d.relato_extra else "")]. *)
Definition relato_total (d : CaseData.t) : string :=
  or_str (CaseData.relato d) ""
  +:+ (if truthy (CaseData.relato_extra d)
       then nl +:+ or_str (CaseData.relato_extra d) "" else "").

(** [if not x: flags.append(msg)], as the list it contributes. *)
Definition flag_unless (present : bool) (msg : string) : list string :=
  if present then [] else [msg].

(** The list [flags] that [validate_and_recheck] builds from [c.data]. *)
Definition compute_flags (d : CaseData.t) : list string :=
  flag_unless (truthy (CaseData.nombre d)) "Falta nombre."
  ++ flag_unless (truthy (CaseData.dui d)) "Falta DUI."
  ++ flag_unless (truthy (CaseData.contacto d)) "Falta contacto."
  ++ flag_unless (truthy (CaseData.empleador_nombre d)) "Falta empleador (nombre)."
  ++ flag_unless (truthy (CaseData.cargo d)) "Falta cargo."
  ++ flag_unless (truthy (CaseData.salario_monto d) && truthy (CaseData.salario_periodicidad d))
       "Falta salario (monto/periodicidad)."
  ++ flag_unless (truthy (CaseData.fecha_inicio d)) "Falta fecha inicio relación."
  ++ flag_unless (truthy (CaseData.fecha_despido_ultimo_pago d)) "Falta fecha despido/último pago."
  ++ flag_unless (truthy (CaseData.relato d)) "Falta relato base (del agente general)."
  ++ flag_unless (truthy (CaseData.pretension d)) "Falta pretensión."
  ++ (if any_in PENAL_SIGNALS (_normalize (relato_total d)) then [FLAG_PENAL] else []).

Definition validate_and_recheck (case_id : string)
    (db : gmap string CaseRecord.t) : dict * gmap string CaseRecord.t :=
  let cid := str_upper case_id in
  match db !! cid with
  | None => (error_result MSG_NOT_FOUND, db)
  | Some c =>
    let d := CaseRecord.data c in
    let flags := compute_flags d in
    let total := relato_total d in
    let d := CaseData.set_banderas flags d in
    let c := CaseRecord.set_state VALIDATED (CaseRecord.set_data d c) in
    let is_laboral := corresponde_a_laboral total in
    let route := route_operativa total in
    let d := CaseData.set_jurisdiccion_probable (Some route) d in
    let c := CaseRecord.set_state PRE_CLASSIFIED (CaseRecord.set_data d c) in
    ([ ("status", VStr "ok");
       ("case_id", VStr cid);
       ("flags", VList (map VStr flags));
       ("jurisdiccion_probable", VStr route);
       ("corresponde_a_laboral_probable", VBool is_laboral);
       ("state", VStr (state_value (CaseRecord.state c))) ],
     <[cid := c]> db)
  end.

(** One line of [docs_lines]. *)
Definition doc_line (chk : gmap string DocumentChecklistItem.t) (doc : string) : string :=
  let item := if decide (chk = ∅) then None else chk !! doc in
  let ok := match item with
            | Some i => DocumentChecklistItem.recibido i
            | None => false
            end in
  let note := match item with
              | Some i =>
                if truthy (DocumentChecklistItem.nota i)
                then " (" +:+ or_str (DocumentChecklistItem.nota i) "" +:+ ")"
                else ""
              | None => ""
              end in
  "- " +:+ (if ok then "✅" else "▫️") +:+ " " +:+ doc +:+ note.

(** The text [expediente] that [generate_expediente] renders for the
    identifier [cid] and the record [c]. *)
Definition render_expediente (cid : string) (c : CaseRecord.t) : string :=
  let d := CaseRecord.data c in
  let docs_lines := map (doc_line (CaseRecord.checklist c)) DOCUMENTOS_BASE in
  join nl
    ([ "=== EXPEDIENTE (BORRADOR OPERATIVO) ===";
       "Case ID: " +:+ cid;
       "";
       "Formato solicitado:";
       "Nombre persona: " +:+ or_str (CaseData.nombre d) "N/D";
       "DUI: " +:+ or_str (CaseData.dui d) "N/D";
       "Relato de los hechos:";
       or_str (Some (relato_total d)) "N/D";
       "";
       "Obligatorios capturados (digitados por operador):";
       "- Contacto: " +:+ or_str (CaseData.contacto d) "N/D";
       "- Empleador: " +:+ or_str (CaseData.empleador_nombre d) "N/D";
       "- Cargo: " +:+ or_str (CaseData.cargo d) "N/D";
       "- Salario: " +:+ or_str (CaseData.salario_monto d) "N/D"
         +:+ " (" +:+ or_str (CaseData.salario_periodicidad d) "N/D" +:+ ")";
       "- Fechas: inicio=" +:+ or_str (CaseData.fecha_inicio d) "N/D"
         +:+ " | despido/último pago="
         +:+ or_str (CaseData.fecha_despido_ultimo_pago d) "N/D";
       "- Pretensión: " +:+ or_str (CaseData.pretension d) "N/D";
       "";
       "Documentos base (si existen):" ]
     ++ docs_lines
     ++ [ "";
          "Pre-clasificación operativa (NO dictamen):";
          "- Ruta/Jurisdicción probable: "
            +:+ or_str (CaseData.jurisdiccion_probable d) "N/D";
          "";
          "Banderas / faltantes:" ]
     ++ (match CaseData.banderas d with
         | [] => ["- (Sin banderas)"]
         | _ :: _ => map (fun x => "- " +:+ x) (CaseData.banderas d)
         end)
     ++ [ "";
          "Nota: revisión humana final obligatoria." ]).

Definition generate_expediente (case_id : string)
    (db : gmap string CaseRecord.t) : dict * gmap string CaseRecord.t :=
  let cid := str_upper case_id in
  match db !! cid with
  | None => (error_result MSG_NOT_FOUND, db)
  | Some c =>
    let expediente := render_expediente cid c in
    let c := CaseRecord.set_expediente (Some expediente) c in
    let c := CaseRecord.set_state EXPEDIENTE_GENERATED c in
    ([ ("status", VStr "ok");
       ("case_id", VStr cid);
       ("expediente", VStr expediente);
       ("state", VStr (state_value (CaseRecord.state c))) ],
     <[cid := c]> db)
  end.

Definition handoff_to_human (case_id : string) (nota : option string)
    (db : gmap string CaseRecord.t) : dict * gmap string CaseRecord.t :=
  let cid := str_upper case_id in
  match db !! cid with
  | None => (error_result MSG_NOT_FOUND, db)
  | Some c =>
    let c := CaseRecord.set_state HANDOFF_TO_HUMAN c in
    ([ ("status", VStr "ok");
       ("case_id", VStr cid);
       ("state", VStr (state_value (CaseRecord.state c)));
       ("nota", VStr (or_str nota "")) ],
     <[cid := c]> db)
  end.

(** [run] performs one call of a tool. *)
Definition run (ts : string * string) (o : op)
    (db : gmap string CaseRecord.t) : dict * gmap string CaseRecord.t :=
  match o with
  | Create_case i => create_case ts i db
  | Capture_identity i a b c => capture_identity ts i a b c db
  | Pull_story_from_general i => pull_story_from_general ts i db
  | Add_more_info i a => add_more_info i a db
  | Capture_required_fields i a b c d e f g => capture_required_fields i a b c d e f g db
  | Request_documents i => request_documents i db
  | Mark_document i a b c => mark_document i a b c db
  | Validate_and_recheck i => validate_and_recheck i db
  | Generate_expediente i => generate_expediente i db
  | Handoff_to_human i a => handoff_to_human i a db
  end.

(** A sequence of calls, each with its own clock readings; the results are
    dropped, the store is threaded. *)
Fixpoint run_all (calls : list ((string * string) * op))
    (db : gmap string CaseRecord.t) : gmap string CaseRecord.t :=
  match calls with
  | [] => db
  | (ts, o) :: rest => run_all rest (snd (run ts o db))
  end.

(** The ten missing-field messages of [validate_and_recheck], in the order
    of its tests. *)
Definition MISSING_FLAGS : list string :=
  [ "Falta nombre.";
    "Falta DUI.";
    "Falta contacto.";
    "Falta empleador (nombre).";
    "Falta cargo.";
    "Falta salario (monto/periodicidad).";
    "Falta fecha inicio relación.";
    "Falta fecha despido/último pago.";
    "Falta relato base (del agente general).";
    "Falta pretensión." ].

(** None of the fields that [validate_and_recheck] tests has been captured. *)
Definition required_unset (d : CaseData.t) : Prop :=
  CaseData.nombre d = None /\ CaseData.dui d = None /\ CaseData.contacto d = None
  /\ CaseData.empleador_nombre d = None /\ CaseData.cargo d = None
  /\ CaseData.salario_monto d = None /\ CaseData.salario_periodicidad d = None
  /\ CaseData.fecha_inicio d = None /\ CaseData.fecha_despido_ultimo_pago d = None
  /\ CaseData.relato d = None /\ CaseData.pretension d = None.

(** ** The tools as updates of one record

    Views of the tools used to state what a call does to the store; the
    lemmas [run_store_effect] and [run_status] tie them to the tools. *)

(** The state label a tool writes on the record it addresses on success;
    [create_case] writes none. *)
Definition target_state (o : op) : option CaseState :=
  match o with
  | Create_case _ => None
  | Capture_identity _ _ _ _ => Some DETAILS_CAPTURED
  | Pull_story_from_general _ => Some DETAILS_CAPTURED
  | Add_more_info _ _ => Some DETAILS_CAPTURED
  | Capture_required_fields _ _ _ _ _ _ _ _ => Some DETAILS_CAPTURED
  | Request_documents _ => Some DOCS_REQUESTED
  | Mark_document _ _ _ _ => Some DOCS_RECEIVED
  | Validate_and_recheck _ => Some PRE_CLASSIFIED
  | Generate_expediente _ => Some EXPEDIENTE_GENERATED
  | Handoff_to_human _ _ => Some HANDOFF_TO_HUMAN
  end.

(** [pull_story_from_general] finds a narrative for its identifier; the
    other tools need none. *)
Definition has_narrative (o : op) : bool :=
  match o with
  | Pull_story_from_general i =>
    match general_get (str_upper i) HARDCODED_GENERAL_CASES with
    | Some _ => true
    | None => false
    end
  | _ => true
  end.

(** The record a call works on: the one stored under the upper-cased
    identifier, or a fresh one for the three tools that create it. *)
Definition addressed (ts : string * string) (o : op)
    (db : gmap string CaseRecord.t) : option CaseRecord.t :=
  match db !! str_upper (op_case_id o) with
  | Some c => Some c
  | None =>
    if requires_record o then None
    else Some (CaseRecord.new ts (str_upper (op_case_id o)))
  end.

(** What a call does to the record it works on. *)
Definition record_effect (o : op) (c : CaseRecord.t) : CaseRecord.t :=
  match o with
  | Create_case _ => c
  | Capture_identity _ dui nombre contacto =>
    let d := CaseData.set_dui (Some dui) (CaseRecord.data c) in
    let d := CaseData.set_nombre (Some nombre) d in
    let d := CaseData.set_contacto (Some contacto) d in
    CaseRecord.set_state DETAILS_CAPTURED (CaseRecord.set_data d c)
  | Pull_story_from_general i =>
    match general_get (str_upper i) HARDCODED_GENERAL_CASES with
    | None => c
    | Some hard =>
      let d := CaseData.set_relato (Some (gc_relato hard)) (CaseRecord.data c) in
      CaseRecord.set_state DETAILS_CAPTURED (CaseRecord.set_data d c)
    end
  | Add_more_info _ info_adicional =>
    let d := CaseData.set_relato_extra (Some info_adicional) (CaseRecord.data c) in
    CaseRecord.set_state DETAILS_CAPTURED (CaseRecord.set_data d c)
  | Capture_required_fields _ empleador_nombre cargo salario_monto salario_periodicidad
      fecha_inicio fecha_despido_ultimo_pago pretension =>
    let d := CaseRecord.data c in
    let d := CaseData.set_empleador_nombre (Some empleador_nombre) d in
    let d := CaseData.set_cargo (Some cargo) d in
    let d := CaseData.set_salario_monto (Some salario_monto) d in
    let d := CaseData.set_salario_periodicidad (Some salario_periodicidad) d in
    let d := CaseData.set_fecha_inicio (Some fecha_inicio) d in
    let d := CaseData.set_fecha_despido_ultimo_pago (Some fecha_despido_ultimo_pago) d in
    let d := CaseData.set_pretension (Some pretension) d in
    CaseRecord.set_state DETAILS_CAPTURED (CaseRecord.set_data d c)
  | Request_documents _ =>
    CaseRecord.set_state DOCS_REQUESTED (CaseRecord.set_checklist base_checklist c)
  | Mark_document _ doc_name existe nota =>
    let chk := if decide (CaseRecord.checklist c = ∅) then base_checklist
               else CaseRecord.checklist c in
    let item := default (DocumentChecklistItem.new doc_name) (chk !! doc_name) in
    let item := DocumentChecklistItem.set_recibido existe item in
    let item := if truthy nota then DocumentChecklistItem.set_nota nota item else item in
    CaseRecord.set_state DOCS_RECEIVED
      (CaseRecord.set_checklist (<[doc_name := item]> chk) c)
  | Validate_and_recheck _ =>
    let d := CaseRecord.data c in
    let d' := CaseData.set_jurisdiccion_probable (Some (route_operativa (relato_total d)))
                (CaseData.set_banderas (compute_flags d) d) in
    CaseRecord.set_state PRE_CLASSIFIED (CaseRecord.set_data d' c)
  | Generate_expediente i =>
    CaseRecord.set_state EXPEDIENTE_GENERATED
      (CaseRecord.set_expediente (Some (render_expediente (str_upper i) c)) c)
  | Handoff_to_human _ _ => CaseRecord.set_state HANDOFF_TO_HUMAN c
  end.

(** Every record sits under its own identifier, which is an upper-cased
    form. *)
Definition store_wf (db : gmap string CaseRecord.t) : Prop :=
  forall k c, db !! k = Some c ->
    CaseRecord.case_id c = k /\ exists i, k = str_upper i.

(** A checklist is empty or holds every base document; every item sits
    under its own document name and is not required. *)
Definition checklist_wf (chk : gmap string DocumentChecklistItem.t) : Prop :=
  (chk = ∅ \/ forall d, In d DOCUMENTOS_BASE -> is_Some (chk !! d))
  /\ forall k i, chk !! k = Some i ->
       DocumentChecklistItem.doc i = k /\ DocumentChecklistItem.requerido i = false.

Definition checklists_wf (db : gmap string CaseRecord.t) : Prop :=
  forall k c, db !! k = Some c -> checklist_wf (CaseRecord.checklist c).

(** The ten validated fields are all captured (truthy). *)
Definition all_captured (d : CaseData.t) : bool :=
  truthy (CaseData.nombre d) && truthy (CaseData.dui d) && truthy (CaseData.contacto d)
  && truthy (CaseData.empleador_nombre d) && truthy (CaseData.cargo d)
  && (truthy (CaseData.salario_monto d) && truthy (CaseData.salario_periodicidad d))
  && truthy (CaseData.fecha_inicio d) && truthy (CaseData.fecha_despido_ultimo_pago d)
  && truthy (CaseData.relato d) && truthy (CaseData.pretension d).

(** Which tools assign which part of a record. *)
Definition writes_expediente (o : op) : bool :=
  match o with
  | Generate_expediente _ => true
  | _ => false
  end.

Definition writes_checklist (o : op) : bool :=
  match o with
  | Request_documents _ | Mark_document _ _ _ _ => true
  | _ => false
  end.

Definition writes_classification (o : op) : bool :=
  match o with
  | Validate_and_recheck _ => true
  | _ => false
  end.

Definition writes_narrative (o : op) : bool :=
  match o with
  | Pull_story_from_general _ | Add_more_info _ _ => true
  | _ => false
  end.

Definition writes_identity (o : op) : bool :=
  match o with
  | Capture_identity _ _ _ _ => true
  | _ => false
  end.

Definition writes_employment (o : op) : bool :=
  match o with
  | Capture_required_fields _ _ _ _ _ _ _ _ => true
  | _ => false
  end.

(** ** Strings *)

Lemma append_cons (a : ascii) (s t : string) :
  String a s +:+ t = String a (s +:+ t).
Proof. reflexivity. Qed.

Lemma prefix_spec (s t : string) :
  String.prefix s t = true <-> exists post, t = s +:+ post.
Proof.
  revert t. induction s as [|a s IH]; intros t.
  - split; [intros _; now exists t | intros _; now destruct t].
  - destruct t as [|b t]; simpl.
    + split; [discriminate | intros [post H]; discriminate].
    + destruct (ascii_dec a b) as [->|Hab].
      * rewrite IH. split; intros [post H]; exists post;
          rewrite append_cons in *; congruence.
      * split; [discriminate |].
        intros [post H]. rewrite append_cons in H. congruence.
Qed.

Lemma str_in_spec (s t : string) : str_in s t = true <-> occurs s t.
Proof.
  unfold occurs. induction t as [|b t IH].
  - cbn [str_in]. rewrite orb_false_r, prefix_spec. split.
    + intros [post H]. now exists "", post.
    + intros [pre [post H]]. destruct pre; [now exists post | discriminate].
  - cbn [str_in]. rewrite orb_true_iff, IH, prefix_spec. split.
    + intros [[post H] | [pre [post H]]].
      * now exists "", post.
      * exists (String b pre), post. rewrite append_cons. now rewrite H.
    + intros [pre [post H]]. destruct pre as [|a pre].
      * left. now exists post.
      * right. exists pre, post. rewrite append_cons in H. congruence.
Qed.

Lemma any_in_spec (l : list string) (t : string) :
  any_in l t = true <-> exists s, In s l /\ occurs s t.
Proof.
  unfold any_in. rewrite existsb_exists.
  split; intros [s [Hs H]]; exists s; split; try assumption; now apply str_in_spec.
Qed.

(** ** The classifier *)

(** C3. Whenever the normalised text contains one of the criminal-signal
    phrases as a substring, the verdict is "not labor" and the routing label
    is the criminal escalation label; nothing is asked of the labor
    keywords, which may occur in any number. *)
Theorem penal_signal_has_priority (text sig : string) :
  In sig PENAL_SIGNALS ->
  occurs sig (_normalize text) ->
  corresponde_a_laboral text = false /\ route_operativa text = ROUTE_PENAL.
Proof.
  intros Hsig Hocc.
  assert (any_in PENAL_SIGNALS (_normalize text) = true) as Hany
    by (apply any_in_spec; eauto).
  unfold corresponde_a_laboral, route_operativa. now rewrite Hany.
Qed.

Lemma route_operativa_cases (text : string) :
  route_operativa text = ROUTE_PENAL
  \/ route_operativa text = ROUTE_LABORAL
  \/ route_operativa text = ROUTE_REVISAR.
Proof.
  unfold route_operativa.
  destruct (any_in PENAL_SIGNALS _); [now left |].
  destruct (any_in LABORAL_KEYWORDS _); [right; now left | right; now right].
Qed.

(** ** The case store *)

(** Unfold whichever tool heads the goal. *)
Ltac unfold_tool :=
  unfold create_case, capture_identity, pull_story_from_general, add_more_info,
    capture_required_fields, request_documents, mark_document,
    validate_and_recheck, generate_expediente, handoff_to_human.

(** The record written back by a tool is the one found under its key. *)
Ltac written_back :=
  eexists; split; [apply lookup_insert_eq | reflexivity].

Lemma setdefault_record_spec (ts : string * string) (cid : string)
    (db : gmap string CaseRecord.t) :
  setdefault_record ts cid db =
    match db !! cid with
    | Some c => (c, db)
    | None => (CaseRecord.new ts cid, <[cid := CaseRecord.new ts cid]> db)
    end.
Proof. unfold setdefault_record. now destruct (db !! cid). Qed.

Lemma setdefault_record_lookup (ts : string * string) (cid : string)
    (db : gmap string CaseRecord.t) :
  snd (setdefault_record ts cid db) !! cid = Some (fst (setdefault_record ts cid db)).
Proof.
  rewrite setdefault_record_spec. destruct (db !! cid) eqn:E; simpl.
  - exact E.
  - apply lookup_insert_eq.
Qed.

Lemma setdefault_record_keeps (ts : string * string) (cid k : string)
    (db : gmap string CaseRecord.t) (c : CaseRecord.t) :
  db !! k = Some c -> snd (setdefault_record ts cid db) !! k = Some c.
Proof.
  intros Hk. rewrite setdefault_record_spec. destruct (db !! cid) eqn:E; simpl.
  - exact Hk.
  - rewrite lookup_insert_ne; [exact Hk | congruence].
Qed.

(** C9. A tool that needs an existing record, called with an identifier
    whose upper-cased form is not a key of the store, returns the NotFound
    error result and hands the store back as it was. *)
Theorem absent_record_not_found (ts : string * string) (o : op)
    (db : gmap string CaseRecord.t) :
  requires_record o = true ->
  db !! str_upper (op_case_id o) = None ->
  run ts o db = (error_result MSG_NOT_FOUND, db).
Proof.
  intros Hreq Habs.
  destruct o; try discriminate Hreq; cbn [op_case_id] in Habs; cbn [run];
    unfold_tool; now rewrite Habs.
Qed.

(** C1 (amended). For an identifier with no narrative registered in
    [HARDCODED_GENERAL_CASES], [pull_story_from_general] returns the
    NoDataAvailable error result; a store that already holds the addressed
    record is returned unchanged; a store that does not hold it is returned
    with one fresh record (state RECEIVED, no data) under the upper-cased
    identifier; every record that was in the store is still there, as it
    was. *)
Theorem pull_story_without_narrative (ts : string * string) (case_id : string)
    (db : gmap string CaseRecord.t) :
  general_get (str_upper case_id) HARDCODED_GENERAL_CASES = None ->
  let cid := str_upper case_id in
  let out := pull_story_from_general ts case_id db in
  fst out = error_result MSG_NO_RELATO
  /\ (is_Some (db !! cid) -> snd out = db)
  /\ (db !! cid = None -> snd out = <[cid := CaseRecord.new ts cid]> db)
  /\ (forall k c, db !! k = Some c -> snd out !! k = Some c).
Proof.
  intros Hnone. cbv zeta. unfold pull_story_from_general.
  rewrite setdefault_record_spec, Hnone.
  destruct (db !! str_upper case_id) as [c0|] eqn:E; cbn [fst snd].
  - split; [reflexivity |]. split; [reflexivity |].
    split; [discriminate |]. intros k c Hk. exact Hk.
  - split; [reflexivity |]. split; [intros [x Hx]; discriminate |].
    split; [reflexivity |].
    intros k c Hk. rewrite lookup_insert_ne; [exact Hk |].
    intros Heq. rewrite <- Heq, E in Hk. discriminate.
Qed.

(** C2 (amended). Every result carries a status, "ok" or "error". With "ok"
    it also carries the upper-cased case identifier and the state the
    addressed record has after the call. With "error" it carries an error
    message, and neither the case identifier nor a state. *)
Theorem result_shape (ts : string * string) (o : op)
    (db : gmap string CaseRecord.t) :
  let cid := str_upper (op_case_id o) in
  let r := fst (run ts o db) in
  let db' := snd (run ts o db) in
  (dict_get "status" r = Some (VStr "ok")
   /\ dict_get "case_id" r = Some (VStr cid)
   /\ exists c, db' !! cid = Some c
       /\ dict_get "state" r = Some (VStr (state_value (CaseRecord.state c))))
  \/ (dict_get "status" r = Some (VStr "error")
      /\ dict_get "case_id" r = None
      /\ dict_get "state" r = None
      /\ exists msg, r = error_result msg).
Proof.
  assert (forall msg, dict_get "status" (error_result msg) = Some (VStr "error")
                      /\ dict_get "case_id" (error_result msg) = None
                      /\ dict_get "state" (error_result msg) = None
                      /\ exists m, error_result msg = error_result m) as Herr
    by (intros msg; repeat split; eauto).
  destruct o; cbn [run op_case_id]; cbv zeta; unfold_tool;
    try rewrite setdefault_record_spec;
    destruct (db !! _) as [c|] eqn:E;
    try destruct (general_get _ _) as [hard|];
    cbn [fst snd]; try (right; apply Herr);
    left; (split; [reflexivity |]); (split; [reflexivity |]);
    try written_back.
  all: eexists; split; [eassumption | reflexivity].
Qed.

Lemma insert_keeps_key (k cid : string) (c : CaseRecord.t)
    (db : gmap string CaseRecord.t) :
  is_Some (db !! k) -> is_Some (<[cid := c]> db !! k).
Proof.
  intros Hk. destruct (decide (cid = k)) as [->|Hne].
  - rewrite lookup_insert_eq. eauto.
  - now rewrite lookup_insert_ne.
Qed.

(** No tool removes a record. *)
Lemma run_keeps_key (ts : string * string) (o : op) (k : string)
    (db : gmap string CaseRecord.t) :
  is_Some (db !! k) -> is_Some (snd (run ts o db) !! k).
Proof.
  intros Hk.
  assert (forall cid, is_Some (snd (setdefault_record ts cid db) !! k)) as Hset.
  { intros cid. destruct Hk as [c Hc]. erewrite setdefault_record_keeps; eauto. }
  destruct o; cbn [run]; unfold_tool;
    try (destruct (db !! str_upper _);
         [now apply insert_keeps_key | exact Hk]).
  - specialize (Hset (str_upper (or_str case_id "LAB-0001"))).
    now destruct (setdefault_record _ _ _).
  - specialize (Hset (str_upper case_id)).
    destruct (setdefault_record _ _ _). now apply insert_keeps_key.
  - specialize (Hset (str_upper case_id)).
    destruct (setdefault_record _ _ _).
    destruct (general_get _ _); [now apply insert_keeps_key | exact Hset].
Qed.

Lemma run_all_keeps_key (calls : list ((string * string) * op)) (k : string)
    (db : gmap string CaseRecord.t) :
  is_Some (db !! k) -> is_Some (run_all calls db !! k).
Proof.
  revert db. induction calls as [|[ts o] rest IH]; intros db Hk; simpl.
  - exact Hk.
  - apply IH. now apply run_keeps_key.
Qed.

Lemma create_case_existing (ts : string * string) (case_id : option string)
    (db : gmap string CaseRecord.t) (c : CaseRecord.t) :
  db !! str_upper (or_str case_id "LAB-0001") = Some c ->
  create_case ts case_id db =
    (ok_result (str_upper (or_str case_id "LAB-0001")) (CaseRecord.state c), db).
Proof.
  intros Hc. unfold create_case. rewrite setdefault_record_spec. now rewrite Hc.
Qed.

(** C6. After a first [create_case] on an identifier, and whatever calls of
    the tools follow it, a second [create_case] on the same identifier
    returns status ok with the state the record has at that moment and
    returns the store untouched: data, checklist, state and expediente of
    the record, and every other record, are as before the second call. *)
Theorem create_case_idempotent (ts1 ts2 : string * string) (case_id : option string)
    (calls : list ((string * string) * op)) (db : gmap string CaseRecord.t) :
  let cid := str_upper (or_str case_id "LAB-0001") in
  let db1 := snd (create_case ts1 case_id db) in
  let db2 := run_all calls db1 in
  exists c, db2 !! cid = Some c
    /\ create_case ts2 case_id db2 = (ok_result cid (CaseRecord.state c), db2).
Proof.
  intros cid db1 db2.
  assert (is_Some (db1 !! cid)) as H1.
  { subst db1. unfold create_case. fold cid.
    pose proof (setdefault_record_lookup ts1 cid db) as L.
    destruct (setdefault_record ts1 cid db) as [c d]. simpl in *. eauto. }
  destruct (run_all_keeps_key calls cid db1 H1) as [c Hc].
  exists c. split; [exact Hc |]. now apply create_case_existing.
Qed.

(** C7. Two calls of the same tool with the same arguments whose identifiers
    have the same upper-cased form return the same result and the same
    store: they address the same record and have the same effect. *)
Theorem case_insensitive_addressing (ts : string * string) (o1 o2 : op)
    (db : gmap string CaseRecord.t) :
  same_call o1 o2 ->
  str_upper (op_case_id o1) = str_upper (op_case_id o2) ->
  run ts o1 db = run ts o2 db.
Proof.
  unfold same_call. intros Hsame Hup.
  destruct o1, o2; try discriminate Hsame; cbn [with_case_id] in Hsame;
    try (injection Hsame; intros; subst); cbn [op_case_id] in Hup; cbn [run];
    unfold_tool; now rewrite Hup.
Qed.

Lemma render_expediente_ext (cid : string) (c1 c2 : CaseRecord.t) :
  CaseRecord.data c1 = CaseRecord.data c2 ->
  CaseRecord.checklist c1 = CaseRecord.checklist c2 ->
  render_expediente cid c1 = render_expediente cid c2.
Proof. intros Hd Hc. unfold render_expediente. now rewrite Hd, Hc. Qed.

(** C8. The text rendered by [generate_expediente] is a function of the
    upper-cased identifier and of the record's data (fields, routing label,
    flags) and checklist alone: two records that agree on these give the
    same result and the same stored text, whatever their state label,
    timestamps and previously stored text; and a second call right after
    the first returns the same result and leaves the store as the first
    call left it. *)
Theorem generate_expediente_deterministic (case_id : string)
    (db1 db2 : gmap string CaseRecord.t) (c1 c2 : CaseRecord.t) :
  db1 !! str_upper case_id = Some c1 ->
  db2 !! str_upper case_id = Some c2 ->
  CaseRecord.data c1 = CaseRecord.data c2 ->
  CaseRecord.checklist c1 = CaseRecord.checklist c2 ->
  let cid := str_upper case_id in
  let out1 := generate_expediente case_id db1 in
  let out2 := generate_expediente case_id db2 in
  fst out1 = fst out2
  /\ dict_get "expediente" (fst out1) = Some (VStr (render_expediente cid c1))
  /\ (CaseRecord.expediente <$> snd out1 !! cid) = Some (Some (render_expediente cid c1))
  /\ (CaseRecord.expediente <$> snd out2 !! cid) = Some (Some (render_expediente cid c1))
  /\ generate_expediente case_id (snd out1) = out1.
Proof.
  intros H1 H2 Hd Hc cid out1 out2. subst out1 out2.
  unfold generate_expediente. fold cid. fold cid in H1, H2. rewrite H1, H2.
  rewrite <- (render_expediente_ext cid c1 c2 Hd Hc). cbn [fst snd].
  rewrite !lookup_insert_eq. cbn [fmap option_fmap option_map].
  repeat split.
  rewrite insert_insert_eq.
  now rewrite (render_expediente_ext cid
                 (CaseRecord.set_state EXPEDIENTE_GENERATED
                    (CaseRecord.set_expediente (Some (render_expediente cid c1)) c1))
                 c1 eq_refl eq_refl).
Qed.

(** ** Validation flags *)

Lemma compute_flags_ignores_banderas (old : list string) (d : CaseData.t) :
  compute_flags (CaseData.set_banderas old d) = compute_flags d.
Proof. now destruct d. Qed.

Lemma compute_flags_unset (d : CaseData.t) :
  required_unset d ->
  compute_flags d =
    MISSING_FLAGS
    ++ (if any_in PENAL_SIGNALS (_normalize (relato_total d)) then [FLAG_PENAL] else []).
Proof.
  intros (H1 & H2 & H3 & H4 & H5 & H6 & H7 & H8 & H9 & H10 & H11).
  unfold compute_flags. now rewrite H1, H2, H3, H4, H5, H6, H7, H8, H9, H10, H11.
Qed.

Lemma flag_penal_not_missing : ~ In FLAG_PENAL MISSING_FLAGS.
Proof. unfold MISSING_FLAGS, FLAG_PENAL. simpl. intuition discriminate. Qed.

(** C4. On an existing record [validate_and_recheck] stores as flags the
    list computed on this call from the captured fields; the flags stored
    before the call play no part in it. When none of the validated fields
    is captured, the stored list is the ten missing-field flags (one for the
    wage amount and periodicity together), in order, followed by the
    criminal-signal flag exactly when the normalised combined narrative
    contains a criminal-signal phrase. *)
Theorem validate_replaces_flags (case_id : string)
    (db : gmap string CaseRecord.t) (c : CaseRecord.t) :
  db !! str_upper case_id = Some c ->
  let cid := str_upper case_id in
  let d := CaseRecord.data c in
  let out := validate_and_recheck case_id db in
  exists c',
    snd out = <[cid := c']> db
    /\ CaseData.banderas (CaseRecord.data c') = compute_flags (CaseData.set_banderas [] d)
    /\ dict_get "flags" (fst out)
       = Some (VList (map VStr (CaseData.banderas (CaseRecord.data c'))))
    /\ (required_unset d ->
        CaseData.banderas (CaseRecord.data c')
          = MISSING_FLAGS
            ++ (if any_in PENAL_SIGNALS (_normalize (relato_total d))
                then [FLAG_PENAL] else [])
        /\ length MISSING_FLAGS = 10
        /\ (In FLAG_PENAL (CaseData.banderas (CaseRecord.data c'))
            <-> exists sig, In sig PENAL_SIGNALS
                            /\ occurs sig (_normalize (relato_total d)))).
Proof.
  intros Hc cid d out. subst out. unfold validate_and_recheck.
  fold cid. fold cid in Hc. rewrite Hc. fold d.
  eexists. split; [reflexivity |].
  assert (forall (fl : list string) (x : option string) (st st' : CaseState),
    CaseData.banderas (CaseRecord.data
      (CaseRecord.set_state st
        (CaseRecord.set_data
          (CaseData.set_jurisdiccion_probable x (CaseData.set_banderas fl d))
          (CaseRecord.set_state st' (CaseRecord.set_data (CaseData.set_banderas fl d) c)))))
    = fl) as Hb by (intros; now destruct d).
  rewrite Hb, compute_flags_ignores_banderas.
  split; [reflexivity |]. split; [reflexivity |].
  intros Hun. rewrite (compute_flags_unset d Hun).
  split; [reflexivity |]. split; [reflexivity |].
  rewrite <- any_in_spec, in_app_iff.
  destruct (any_in PENAL_SIGNALS _); split.
  - reflexivity.
  - intros _. right. now left.
  - intros [H | []]. now apply flag_penal_not_missing in H.
  - discriminate.
Qed.

(** ** The document checklist *)

Lemma base_checklist_complete (d : string) :
  In d DOCUMENTOS_BASE -> base_checklist !! d = Some (DocumentChecklistItem.new d).
Proof.
  unfold DOCUMENTOS_BASE. simpl.
  intros H. repeat (destruct H as [<- | H]; [vm_compute; reflexivity |]).
  destruct H.
Qed.

Lemma base_checklist_lookup (k : string) (i : DocumentChecklistItem.t) :
  base_checklist !! k = Some i -> i = DocumentChecklistItem.new k.
Proof.
  intros H. apply elem_of_list_to_map_2, list_elem_of_In in H.
  unfold base_items, DOCUMENTOS_BASE in H. simpl in H.
  repeat (destruct H as [H | H]; [now inversion H |]).
  destruct H.
Qed.

Lemma base_checklist_default (k : string) :
  default (DocumentChecklistItem.new k) (base_checklist !! k)
  = DocumentChecklistItem.new k.
Proof.
  destruct (base_checklist !! k) as [i|] eqn:E; simpl; [| reflexivity].
  now apply base_checklist_lookup.
Qed.

(** C5. On an existing record whose checklist is empty, [mark_document]
    returns status ok and leaves the record with a checklist that holds an
    item for every entry of [DOCUMENTOS_BASE]: the default item for the
    entries other than the named one, and for the named document an item
    with the received flag as given and the note as given (no note when none
    or an empty one is passed). *)
Theorem mark_document_before_request (case_id doc_name : string) (existe : bool)
    (nota : option string) (db : gmap string CaseRecord.t) (c : CaseRecord.t) :
  db !! str_upper case_id = Some c ->
  CaseRecord.checklist c = ∅ ->
  let cid := str_upper case_id in
  let out := mark_document case_id doc_name existe nota db in
  dict_get "status" (fst out) = Some (VStr "ok")
  /\ exists c',
      snd out = <[cid := c']> db
      /\ CaseRecord.state c' = DOCS_RECEIVED
      /\ CaseRecord.data c' = CaseRecord.data c
      /\ CaseRecord.checklist c' !! doc_name
         = Some (DocumentChecklistItem.mk doc_name false existe
                   (if truthy nota then nota else None))
      /\ (forall d, In d DOCUMENTOS_BASE -> d <> doc_name ->
            CaseRecord.checklist c' !! d = Some (DocumentChecklistItem.new d))
      /\ (forall d, In d DOCUMENTOS_BASE -> is_Some (CaseRecord.checklist c' !! d)).
Proof.
  intros Hc Hempty cid out. subst out. unfold mark_document.
  fold cid. fold cid in Hc. rewrite Hc.
  destruct (decide (CaseRecord.checklist c = ∅)) as [_|Hne]; [| contradiction].
  rewrite base_checklist_default. cbn [fst snd].
  split; [reflexivity |]. eexists. split; [reflexivity |].
  cbn [CaseRecord.state CaseRecord.set_state CaseRecord.data
       CaseRecord.set_checklist CaseRecord.checklist].
  split; [reflexivity |]. split; [reflexivity |].
  split; [| split].
  - rewrite lookup_insert_eq. now destruct (truthy nota).
  - intros d Hd Hne. rewrite lookup_insert_ne by congruence.
    now apply base_checklist_complete.
  - intros d Hd. destruct (decide (doc_name = d)) as [->|Hne].
    + rewrite lookup_insert_eq. eauto.
    + rewrite lookup_insert_ne by assumption.
      rewrite base_checklist_complete by assumption. eauto.
Qed.

(** C10. On an existing record whose checklist holds an item for the named
    document, [mark_document] sets the item's received flag; with the note
    absent or empty the stored note stays as it was, with a non-empty note
    it becomes that note; in no case does an item that had a note end up
    without one. The other items are untouched. *)
Theorem mark_document_keeps_note (case_id doc_name : string) (existe : bool)
    (nota : option string) (db : gmap string CaseRecord.t) (c : CaseRecord.t)
    (item : DocumentChecklistItem.t) :
  db !! str_upper case_id = Some c ->
  CaseRecord.checklist c !! doc_name = Some item ->
  let cid := str_upper case_id in
  let out := mark_document case_id doc_name existe nota db in
  exists c' item',
    snd out = <[cid := c']> db
    /\ CaseRecord.checklist c' !! doc_name = Some item'
    /\ DocumentChecklistItem.recibido item' = existe
    /\ (truthy nota = false ->
        DocumentChecklistItem.nota item' = DocumentChecklistItem.nota item)
    /\ (truthy nota = true -> DocumentChecklistItem.nota item' = nota)
    /\ (is_Some (DocumentChecklistItem.nota item) ->
        is_Some (DocumentChecklistItem.nota item'))
    /\ DocumentChecklistItem.doc item' = DocumentChecklistItem.doc item
    /\ DocumentChecklistItem.requerido item' = DocumentChecklistItem.requerido item
    /\ (forall k, k <> doc_name ->
          CaseRecord.checklist c' !! k = CaseRecord.checklist c !! k).
Proof.
  intros Hc Hitem cid out. subst out. unfold mark_document.
  fold cid. fold cid in Hc. rewrite Hc.
  destruct (decide (CaseRecord.checklist c = ∅)) as [He|_].
  { rewrite He, lookup_empty in Hitem. discriminate. }
  rewrite Hitem. cbn [default fst snd].
  eexists. eexists. split; [reflexivity |].
  cbn [CaseRecord.state CaseRecord.set_state CaseRecord.data
       CaseRecord.set_checklist CaseRecord.checklist].
  split; [apply lookup_insert_eq |].
  destruct nota as [[|a r]|]; cbn [truthy]; repeat split;
    try discriminate; try (intros; reflexivity); try (intros H; exact H);
    try (intros k Hk; rewrite lookup_insert_ne by congruence; reflexivity).
  intros _. cbn. eauto.
Qed.

(** ** Every call is an update of one record *)

Lemma run_store_effect (ts : string * string) (o : op)
    (db : gmap string CaseRecord.t) :
  snd (run ts o db) =
    match addressed ts o db with
    | Some c => <[str_upper (op_case_id o) := record_effect o c]> db
    | None => db
    end.
Proof.
  unfold addressed.
  destruct o; cbn [run op_case_id requires_record record_effect]; unfold_tool;
    try rewrite setdefault_record_spec;
    destruct (db !! _) as [c|] eqn:E;
    try destruct (general_get _ _) as [hard|];
    cbn [fst snd]; try reflexivity;
    try (symmetry; now apply insert_id);
    apply insert_insert_eq.
Qed.

Lemma run_status (ts : string * string) (o : op)
    (db : gmap string CaseRecord.t) :
  dict_get "status" (fst (run ts o db)) =
    Some (VStr (match addressed ts o db with
                | Some _ => if has_narrative o then "ok" else "error"
                | None => "error"
                end)).
Proof.
  unfold addressed.
  destruct o; cbn [run op_case_id requires_record has_narrative]; unfold_tool;
    try rewrite setdefault_record_spec;
    destruct (db !! _) as [c|] eqn:E;
    try destruct (general_get _ _) as [hard|];
    reflexivity.
Qed.

Lemma record_effect_fixed_fields (o : op) (c : CaseRecord.t) :
  CaseRecord.case_id (record_effect o c) = CaseRecord.case_id c
  /\ CaseRecord.created_at (record_effect o c) = CaseRecord.created_at c
  /\ CaseRecord.updated_at (record_effect o c) = CaseRecord.updated_at c.
Proof.
  destruct o; cbn [record_effect]; try destruct (general_get _ _); repeat split.
Qed.

(** X1. A call leaves every record other than the one it addresses exactly
    as it was, and adds or removes no other key. *)
Theorem run_frame_other_records (ts : string * string) (o : op)
    (db : gmap string CaseRecord.t) (k : string) :
  k <> str_upper (op_case_id o) ->
  snd (run ts o db) !! k = db !! k.
Proof.
  intros Hne. rewrite run_store_effect.
  destruct (addressed ts o db); [| reflexivity].
  now rewrite lookup_insert_ne by congruence.
Qed.

(** X2. No sequence of calls removes a record: the keys of the store only
    grow. *)
Theorem store_never_shrinks (calls : list ((string * string) * op))
    (db : gmap string CaseRecord.t) :
  dom db ⊆ dom (run_all calls db).
Proof.
  intros k Hk. apply elem_of_dom. apply elem_of_dom in Hk.
  now apply run_all_keeps_key.
Qed.

Lemma run_store_wf (ts : string * string) (o : op)
    (db : gmap string CaseRecord.t) :
  store_wf db -> store_wf (snd (run ts o db)).
Proof.
  intros Hwf k c. rewrite run_store_effect. unfold addressed.
  destruct (db !! str_upper (op_case_id o)) as [c0|] eqn:E.
  - destruct (decide (str_upper (op_case_id o) = k)) as [<-|Hne].
    + rewrite lookup_insert_eq. intros [= <-].
      destruct (record_effect_fixed_fields o c0) as (-> & _).
      now apply Hwf.
    + rewrite lookup_insert_ne by assumption. apply Hwf.
  - destruct (requires_record o); [apply Hwf |].
    destruct (decide (str_upper (op_case_id o) = k)) as [<-|Hne].
    + rewrite lookup_insert_eq. intros [= <-].
      destruct (record_effect_fixed_fields o
                  (CaseRecord.new ts (str_upper (op_case_id o)))) as (-> & _).
      split; [reflexivity | eauto].
    + rewrite lookup_insert_ne by assumption. apply Hwf.
Qed.

(** X3. In a store where every record sits under its own [case_id] and
    every key is the upper-cased form of some identifier, this is still so
    after any sequence of calls. *)
Theorem store_wf_preserved (calls : list ((string * string) * op))
    (db : gmap string CaseRecord.t) :
  store_wf db -> store_wf (run_all calls db).
Proof.
  revert db. induction calls as [|[ts o] rest IH]; intros db Hwf; simpl.
  - exact Hwf.
  - apply IH. now apply run_store_wf.
Qed.

Lemma run_fixed_fields (ts : string * string) (o : op)
    (db : gmap string CaseRecord.t) (k : string) (c : CaseRecord.t) :
  db !! k = Some c ->
  exists c', snd (run ts o db) !! k = Some c'
    /\ CaseRecord.case_id c' = CaseRecord.case_id c
    /\ CaseRecord.created_at c' = CaseRecord.created_at c
    /\ CaseRecord.updated_at c' = CaseRecord.updated_at c.
Proof.
  intros Hk. rewrite run_store_effect. unfold addressed.
  destruct (decide (str_upper (op_case_id o) = k)) as [Heq|Hne].
  - rewrite Heq, Hk, lookup_insert_eq. eexists. split; [reflexivity |].
    apply record_effect_fixed_fields.
  - destruct (db !! str_upper (op_case_id o));
      [| destruct (requires_record o)];
      try rewrite lookup_insert_ne by assumption; eauto.
Qed.

(** X4. No tool refreshes a timestamp or renames a record: after any
    sequence of calls an existing record still has the [case_id],
    [created_at] and [updated_at] it had. *)
Theorem timestamps_never_refreshed (calls : list ((string * string) * op))
    (db : gmap string CaseRecord.t) (k : string) (c : CaseRecord.t) :
  db !! k = Some c ->
  exists c', run_all calls db !! k = Some c'
    /\ CaseRecord.case_id c' = CaseRecord.case_id c
    /\ CaseRecord.created_at c' = CaseRecord.created_at c
    /\ CaseRecord.updated_at c' = CaseRecord.updated_at c.
Proof.
  revert db c. induction calls as [|[ts o] rest IH]; intros db c Hk; simpl.
  - eauto.
  - destruct (run_fixed_fields ts o db k c Hk) as (c1 & H1 & Ha & Hb & Hc).
    destruct (IH _ _ H1) as (c2 & H2 & Ha' & Hb' & Hc').
    exists c2. split; [exact H2 |]. repeat split; congruence.
Qed.

(** X5. A call reports an error in exactly two situations: the tool needs
    an existing record and there is none under the upper-cased identifier,
    or it is [pull_story_from_general] on an identifier without narrative.
    In every other situation the status is ok. *)
Theorem call_fails_exactly_when (ts : string * string) (o : op)
    (db : gmap string CaseRecord.t) :
  (dict_get "status" (fst (run ts o db)) = Some (VStr "error")
   <-> (requires_record o = true /\ db !! str_upper (op_case_id o) = None)
       \/ has_narrative o = false)
  /\ (dict_get "status" (fst (run ts o db)) = Some (VStr "ok")
      <-> (requires_record o = false \/ is_Some (db !! str_upper (op_case_id o)))
          /\ has_narrative o = true).
Proof.
  rewrite run_status. unfold addressed.
  destruct (db !! str_upper (op_case_id o)) as [c|];
    destruct (requires_record o); destruct (has_narrative o);
    (split;
     (split;
      [ intros H; try discriminate H; auto
      | intros H; try reflexivity; exfalso ])).
  all: try (destruct H as [[H1 H2] | H]; discriminate).
  all: try (destruct H as [[H1 | [x H1]] H2]; discriminate).
  all: try (destruct H as [_ H]; discriminate).
  all: try (split; [| reflexivity]; eauto).
Qed.

Lemma record_effect_state (o : op) (c : CaseRecord.t) :
  has_narrative o = true ->
  CaseRecord.state (record_effect o c) = default (CaseRecord.state c) (target_state o).
Proof.
  destruct o; cbn [record_effect has_narrative target_state default]; try reflexivity.
  destruct (general_get _ _); [reflexivity | discriminate].
Qed.

(** X6. The state label is never a precondition: on an existing record, in
    whatever state, every tool succeeds (for [pull_story_from_general],
    given a registered narrative) and writes its own label; [create_case]
    leaves the label as it is. *)
Theorem tools_accept_any_state (ts : string * string) (o : op)
    (db : gmap string CaseRecord.t) (c : CaseRecord.t) :
  db !! str_upper (op_case_id o) = Some c ->
  has_narrative o = true ->
  dict_get "status" (fst (run ts o db)) = Some (VStr "ok")
  /\ exists c', snd (run ts o db) !! str_upper (op_case_id o) = Some c'
       /\ CaseRecord.state c' = default (CaseRecord.state c) (target_state o).
Proof.
  intros Hc Hn. rewrite run_status, run_store_effect. unfold addressed.
  rewrite Hc, Hn. split; [reflexivity |].
  eexists. split; [apply lookup_insert_eq |]. now apply record_effect_state.
Qed.

Lemma run_lookup_cases (ts : string * string) (o : op)
    (db : gmap string CaseRecord.t) (k : string) (c : CaseRecord.t) :
  db !! k = Some c ->
  snd (run ts o db) !! k = Some c
  \/ snd (run ts o db) !! k = Some (record_effect o c).
Proof.
  intros Hk. rewrite run_store_effect. unfold addressed.
  destruct (decide (str_upper (op_case_id o) = k)) as [Heq|Hne].
  - right. now rewrite Heq, Hk, lookup_insert_eq.
  - left. destruct (db !! str_upper (op_case_id o));
      [| destruct (requires_record o)];
      try rewrite lookup_insert_ne by assumption; assumption.
Qed.

(** X7. The stored expediente is assigned by [generate_expediente] alone:
    any other call, whatever it changes in the record, leaves the text
    generated earlier in place. *)
Theorem expediente_changes_only_by_generate (ts : string * string) (o : op)
    (db : gmap string CaseRecord.t) (k : string) (c : CaseRecord.t) :
  writes_expediente o = false ->
  db !! k = Some c ->
  exists c', snd (run ts o db) !! k = Some c'
    /\ CaseRecord.expediente c' = CaseRecord.expediente c.
Proof.
  intros Hw Hk. destruct (run_lookup_cases ts o db k c Hk) as [H | H];
    rewrite H; eexists; (split; [reflexivity |]); [reflexivity |].
  destruct o; try discriminate Hw; cbn [record_effect];
    try destruct (general_get _ _); reflexivity.
Qed.

(** X8. The checklist of a record is assigned by [request_documents] and
    [mark_document] alone. *)
Theorem checklist_changes_only_by_document_tools (ts : string * string) (o : op)
    (db : gmap string CaseRecord.t) (k : string) (c : CaseRecord.t) :
  writes_checklist o = false ->
  db !! k = Some c ->
  exists c', snd (run ts o db) !! k = Some c'
    /\ CaseRecord.checklist c' = CaseRecord.checklist c.
Proof.
  intros Hw Hk. destruct (run_lookup_cases ts o db k c Hk) as [H | H];
    rewrite H; eexists; (split; [reflexivity |]); [reflexivity |].
  destruct o; try discriminate Hw; cbn [record_effect];
    try destruct (general_get _ _); reflexivity.
Qed.

Lemma record_effect_data_frame (o : op) (c : CaseRecord.t) :
  let d := CaseRecord.data c in
  let d' := CaseRecord.data (record_effect o c) in
  (writes_identity o = false ->
     CaseData.nombre d' = CaseData.nombre d /\ CaseData.dui d' = CaseData.dui d
     /\ CaseData.contacto d' = CaseData.contacto d)
  /\ (writes_employment o = false ->
       CaseData.empleador_nombre d' = CaseData.empleador_nombre d
       /\ CaseData.cargo d' = CaseData.cargo d
       /\ CaseData.salario_monto d' = CaseData.salario_monto d
       /\ CaseData.salario_periodicidad d' = CaseData.salario_periodicidad d
       /\ CaseData.fecha_inicio d' = CaseData.fecha_inicio d
       /\ CaseData.fecha_despido_ultimo_pago d' = CaseData.fecha_despido_ultimo_pago d
       /\ CaseData.pretension d' = CaseData.pretension d)
  /\ (writes_narrative o = false ->
       CaseData.relato d' = CaseData.relato d
       /\ CaseData.relato_extra d' = CaseData.relato_extra d)
  /\ (writes_classification o = false ->
       CaseData.jurisdiccion_probable d' = CaseData.jurisdiccion_probable d
       /\ CaseData.banderas d' = CaseData.banderas d).
Proof.
  destruct c as [cid st t1 t2 d chk ex]. destruct d.
  destruct o; cbn [record_effect]; try destruct (general_get _ _);
    cbv zeta; repeat split; try reflexivity;
    match goal with H : _ = false |- _ => cbn in H; discriminate H end.
Qed.

(** X9. Each group of captured fields has its own writers: the identity
    fields are assigned by [capture_identity] alone, the employer, wage,
    date and claim fields by [capture_required_fields] alone, the two
    narrative fields by [pull_story_from_general] and [add_more_info] alone,
    the routing label and the flags by [validate_and_recheck] alone. A call
    of any other tool leaves the group as it was. *)
Theorem data_fields_have_own_writers (ts : string * string) (o : op)
    (db : gmap string CaseRecord.t) (k : string) (c : CaseRecord.t) :
  db !! k = Some c ->
  exists c', snd (run ts o db) !! k = Some c'
    /\ let d := CaseRecord.data c in
       let d' := CaseRecord.data c' in
       (writes_identity o = false ->
          CaseData.nombre d' = CaseData.nombre d /\ CaseData.dui d' = CaseData.dui d
          /\ CaseData.contacto d' = CaseData.contacto d)
       /\ (writes_employment o = false ->
            CaseData.empleador_nombre d' = CaseData.empleador_nombre d
            /\ CaseData.cargo d' = CaseData.cargo d
            /\ CaseData.salario_monto d' = CaseData.salario_monto d
            /\ CaseData.salario_periodicidad d' = CaseData.salario_periodicidad d
            /\ CaseData.fecha_inicio d' = CaseData.fecha_inicio d
            /\ CaseData.fecha_despido_ultimo_pago d'
               = CaseData.fecha_despido_ultimo_pago d
            /\ CaseData.pretension d' = CaseData.pretension d)
       /\ (writes_narrative o = false ->
            CaseData.relato d' = CaseData.relato d
            /\ CaseData.relato_extra d' = CaseData.relato_extra d)
       /\ (writes_classification o = false ->
            CaseData.jurisdiccion_probable d' = CaseData.jurisdiccion_probable d
            /\ CaseData.banderas d' = CaseData.banderas d).
Proof.
  intros Hk. destruct (run_lookup_cases ts o db k c Hk) as [H | H];
    rewrite H; eexists; (split; [reflexivity |]).
  - cbv zeta. repeat split.
  - apply record_effect_data_frame.
Qed.

(** ** The shape of checklists *)

Lemma base_checklist_wf : checklist_wf base_checklist.
Proof.
  split.
  - right. intros d Hd. rewrite base_checklist_complete by assumption. eauto.
  - intros k i Hi. apply base_checklist_lookup in Hi. now subst i.
Qed.

Lemma record_effect_checklist_wf (o : op) (c : CaseRecord.t) :
  checklist_wf (CaseRecord.checklist c) ->
  checklist_wf (CaseRecord.checklist (record_effect o c)).
Proof.
  intros Hwf.
  destruct o; cbn [record_effect]; try destruct (general_get _ _);
    try exact Hwf; try exact base_checklist_wf.
  cbv zeta. cbn [CaseRecord.checklist CaseRecord.set_state CaseRecord.set_checklist].
  set (chk := if decide (CaseRecord.checklist c = ∅) then base_checklist
              else CaseRecord.checklist c).
  assert (checklist_wf chk /\ chk <> ∅ \/ checklist_wf chk /\ chk = base_checklist)
    as Hchk.
  { subst chk. destruct (decide (CaseRecord.checklist c = ∅)).
    - right. split; [exact base_checklist_wf | reflexivity].
    - left. split; assumption. }
  assert (checklist_wf chk) as [Hfull Hkeys] by (destruct Hchk as [[H _] | [H _]]; exact H).
  assert (forall d, In d DOCUMENTOS_BASE -> is_Some (chk !! d)) as Hall.
  { destruct Hchk as [[_ Hne] | [_ ->]].
    - destruct Hfull as [He | Hf]; [contradiction | exact Hf].
    - intros d Hd. rewrite base_checklist_complete by assumption. eauto. }
  split.
  - right. intros d Hd. destruct (decide (doc_name = d)) as [->|Hne].
    + rewrite lookup_insert_eq. eauto.
    + rewrite lookup_insert_ne by assumption. now apply Hall.
  - intros k i. destruct (decide (doc_name = k)) as [->|Hne].
    + rewrite lookup_insert_eq. intros [= <-].
      assert (DocumentChecklistItem.doc
                (default (DocumentChecklistItem.new k) (chk !! k)) = k
              /\ DocumentChecklistItem.requerido
                   (default (DocumentChecklistItem.new k) (chk !! k)) = false)
        as [Hd Hr].
      { destruct (chk !! k) as [i0|] eqn:E; cbn [default from_option id].
        - now apply Hkeys.
        - split; reflexivity. }
      destruct (truthy nota); cbn; now rewrite Hd, Hr.
    + rewrite lookup_insert_ne by assumption. apply Hkeys.
Qed.

Lemma run_checklists_wf (ts : string * string) (o : op)
    (db : gmap string CaseRecord.t) :
  checklists_wf db -> checklists_wf (snd (run ts o db)).
Proof.
  intros Hwf k c. rewrite run_store_effect. unfold addressed.
  assert (forall c0, checklist_wf (CaseRecord.checklist c0) ->
            <[str_upper (op_case_id o) := record_effect o c0]> db !! k = Some c ->
            checklist_wf (CaseRecord.checklist c)) as Hins.
  { intros c0 H0. destruct (decide (str_upper (op_case_id o) = k)) as [<-|Hne].
    - rewrite lookup_insert_eq. intros [= <-]. now apply record_effect_checklist_wf.
    - rewrite lookup_insert_ne by assumption. apply Hwf. }
  destruct (db !! str_upper (op_case_id o)) as [c0|] eqn:E.
  - apply Hins. now apply (Hwf _ _ E).
  - destruct (requires_record o); [apply Hwf |].
    apply Hins. split; [now left |]. intros k0 i. cbn. now rewrite lookup_empty.
Qed.

(** X10. In a store whose checklists are each empty or complete (an item
    for every base document), with every item under its own document name
    and not required, this is still so after any sequence of calls: no tool
    leaves a partial checklist, files an item under another name, or makes a
    document required. *)
Theorem checklists_wf_preserved (calls : list ((string * string) * op))
    (db : gmap string CaseRecord.t) :
  checklists_wf db -> checklists_wf (run_all calls db).
Proof.
  revert db. induction calls as [|[ts o] rest IH]; intros db Hwf; simpl.
  - exact Hwf.
  - apply IH. now apply run_checklists_wf.
Qed.

(** X11. For any document name, listed in [DOCUMENTOS_BASE] or not,
    [mark_document] on an existing record succeeds and files under that
    name the item the record had there, or a fresh one, with the received
    flag as given and with the note replaced when a non-empty one is given.
    When the checklist was not empty its other items are untouched; when it
    was empty they are the default items of the base documents. *)
Theorem mark_document_upsert (case_id doc_name : string) (existe : bool)
    (nota : option string) (db : gmap string CaseRecord.t) (c : CaseRecord.t) :
  db !! str_upper case_id = Some c ->
  let out := mark_document case_id doc_name existe nota db in
  let item := default (DocumentChecklistItem.new doc_name)
                (CaseRecord.checklist c !! doc_name) in
  dict_get "status" (fst out) = Some (VStr "ok")
  /\ exists c',
      snd out = <[str_upper case_id := c']> db
      /\ CaseRecord.checklist c' !! doc_name
         = Some (DocumentChecklistItem.mk
                   (DocumentChecklistItem.doc item)
                   (DocumentChecklistItem.requerido item)
                   existe
                   (if truthy nota then nota else DocumentChecklistItem.nota item))
      /\ (forall k, k <> doc_name ->
            CaseRecord.checklist c' !! k
            = if decide (CaseRecord.checklist c = ∅) then base_checklist !! k
              else CaseRecord.checklist c !! k).
Proof.
  intros Hc. cbv zeta. unfold mark_document. rewrite Hc. cbn [fst snd].
  split; [reflexivity |]. eexists. split; [reflexivity |].
  cbn [CaseRecord.checklist CaseRecord.set_state CaseRecord.set_checklist].
  split.
  - rewrite lookup_insert_eq.
    destruct (decide (CaseRecord.checklist c = ∅)) as [He|Hne].
    + rewrite He, lookup_empty, base_checklist_default.
      cbn. now destruct (truthy nota).
    + now destruct (truthy nota).
  - intros k Hk. rewrite lookup_insert_ne by congruence.
    now destruct (decide (CaseRecord.checklist c = ∅)).
Qed.

(** ** How calls compose *)

(** X12. [add_more_info] and [capture_required_fields] overwrite: a second
    call returns what it would have returned without the first and leaves
    the store it would have left; nothing of the first call's supplement or
    fields is kept or appended to. *)
Theorem last_capture_wins (case_id a b : string)
    (e1 c1 m1 p1 i1 f1 r1 e2 c2 m2 p2 i2 f2 r2 : string)
    (db : gmap string CaseRecord.t) :
  add_more_info case_id b (snd (add_more_info case_id a db))
  = add_more_info case_id b db
  /\ capture_required_fields case_id e2 c2 m2 p2 i2 f2 r2
       (snd (capture_required_fields case_id e1 c1 m1 p1 i1 f1 r1 db))
     = capture_required_fields case_id e2 c2 m2 p2 i2 f2 r2 db.
Proof.
  unfold add_more_info, capture_required_fields.
  destruct (db !! str_upper case_id) as [c|] eqn:E; cbn [fst snd].
  - rewrite !lookup_insert_eq, !insert_insert_eq.
    destruct c as [cid st t1 t2 d chk ex]. destruct d. split; reflexivity.
  - rewrite E. split; reflexivity.
Qed.

(** X13. On an existing record [capture_identity] and
    [capture_required_fields] can be called in either order: the store is
    the same. *)
Theorem capture_tools_commute (ts : string * string)
    (case_id dui nombre contacto e c1 m p i f r : string)
    (db : gmap string CaseRecord.t) (c : CaseRecord.t) :
  db !! str_upper case_id = Some c ->
  snd (capture_required_fields case_id e c1 m p i f r
         (snd (capture_identity ts case_id dui nombre contacto db)))
  = snd (capture_identity ts case_id dui nombre contacto
           (snd (capture_required_fields case_id e c1 m p i f r db))).
Proof.
  intros Hc. unfold capture_required_fields, capture_identity.
  rewrite !setdefault_record_spec, Hc. cbn [fst snd].
  rewrite !lookup_insert_eq. cbn [fst snd]. rewrite !insert_insert_eq.
  destruct c as [cid st t1 t2 d chk ex]. destruct d. reflexivity.
Qed.

Lemma compute_flags_ignores_classification (x : option string) (fl : list string)
    (d : CaseData.t) :
  compute_flags (CaseData.set_jurisdiccion_probable x (CaseData.set_banderas fl d))
  = compute_flags d
  /\ relato_total (CaseData.set_jurisdiccion_probable x (CaseData.set_banderas fl d))
     = relato_total d.
Proof. destruct d. split; reflexivity. Qed.

(** X14. [validate_and_recheck] is idempotent: validating again without
    any capture in between returns the same result and leaves the same
    store, since flags and routing label are computed from the captured
    fields only. *)
Theorem validate_idempotent (case_id : string) (db : gmap string CaseRecord.t) :
  validate_and_recheck case_id (snd (validate_and_recheck case_id db))
  = validate_and_recheck case_id db.
Proof.
  unfold validate_and_recheck.
  destruct (db !! str_upper case_id) as [c|] eqn:E; cbn [fst snd].
  - rewrite lookup_insert_eq, insert_insert_eq.
    cbn [CaseRecord.data CaseRecord.set_state CaseRecord.set_data].
    destruct (compute_flags_ignores_classification
                (Some (route_operativa (relato_total (CaseRecord.data c))))
                (compute_flags (CaseRecord.data c)) (CaseRecord.data c)) as [-> ->].
    destruct c as [cid st t1 t2 d chk ex]. destruct d. reflexivity.
  - now rewrite E.
Qed.

(** X15. [request_documents] starts the checklist over: called after
    [mark_document] it returns the result and leaves the store it would
    without the marking, so received flags and notes recorded before are
    lost. *)
Theorem request_documents_discards_marks (case_id doc_name : string) (existe : bool)
    (nota : option string) (db : gmap string CaseRecord.t) :
  request_documents case_id (snd (mark_document case_id doc_name existe nota db))
  = request_documents case_id db.
Proof.
  unfold request_documents, mark_document.
  destruct (db !! str_upper case_id) as [c|] eqn:E; cbn [fst snd].
  - rewrite lookup_insert_eq, insert_insert_eq. reflexivity.
  - now rewrite E.
Qed.

(** ** The classifier, further *)

Lemma route_labels_distinct :
  ROUTE_PENAL <> ROUTE_LABORAL /\ ROUTE_PENAL <> ROUTE_REVISAR
  /\ ROUTE_LABORAL <> ROUTE_REVISAR.
Proof. repeat split; discriminate. Qed.

Lemma verdict_route_iff (text : string) :
  corresponde_a_laboral text = true <-> route_operativa text = ROUTE_LABORAL.
Proof.
  clear str_upper.
  destruct route_labels_distinct as (H1 & H2 & H3).
  unfold corresponde_a_laboral, route_operativa.
  destruct (any_in PENAL_SIGNALS _); [split; [discriminate | congruence] |].
  destruct (any_in LABORAL_KEYWORDS _); split; congruence.
Qed.

(** X16. The two classifier functions agree on every text: the verdict of
    [corresponde_a_laboral] is "labor" exactly when [route_operativa] gives
    the labor label; with the criminal or the review label the verdict is
    "not labor". *)
Theorem verdict_agrees_with_route (text : string) :
  (corresponde_a_laboral text = true <-> route_operativa text = ROUTE_LABORAL)
  /\ (corresponde_a_laboral text = false
      <-> route_operativa text = ROUTE_PENAL \/ route_operativa text = ROUTE_REVISAR).
Proof.
  clear str_upper.
  split; [exact (verdict_route_iff text) |].
  destruct route_labels_distinct as (H1 & H2 & H3).
  unfold corresponde_a_laboral, route_operativa.
  destruct (any_in PENAL_SIGNALS _).
  - split; [intros _; now left | reflexivity].
  - destruct (any_in LABORAL_KEYWORDS _).
    + split; [discriminate | intros [H | H]; congruence].
    + split; [intros _; now right | reflexivity].
Qed.

(** X17. The routing label is decided by substring occurrence in the
    normalised text: the criminal label exactly when a criminal-signal
    phrase occurs; the labor label exactly when none does and a labor
    keyword occurs; the review label exactly when neither occurs. *)
Theorem route_operativa_characterised (text : string) :
  let t := _normalize text in
  let penal := exists s, In s PENAL_SIGNALS /\ occurs s t in
  let laboral := exists k, In k LABORAL_KEYWORDS /\ occurs k t in
  (route_operativa text = ROUTE_PENAL <-> penal)
  /\ (route_operativa text = ROUTE_LABORAL <-> ~ penal /\ laboral)
  /\ (route_operativa text = ROUTE_REVISAR <-> ~ penal /\ ~ laboral).
Proof.
  clear str_upper.
  cbv zeta. destruct route_labels_distinct as (H1 & H2 & H3).
  rewrite <- !any_in_spec. unfold route_operativa.
  destruct (any_in PENAL_SIGNALS _); destruct (any_in LABORAL_KEYWORDS _);
    repeat split; try congruence; try tauto; try discriminate;
    intros H; try (destruct H as [Ha Hb]); congruence.
Qed.

Lemma strip_blank (text : string) : all_ws text = true -> strip text = "".
Proof.
  unfold all_ws, strip. destruct (lstrip text); [reflexivity | discriminate].
Qed.

(** X18. A narrative that is empty or made of white space only is routed
    to human review and is not labor (given that lower-casing the empty
    string gives the empty string). *)
Theorem blank_narrative_needs_review (text : string) :
  str_lower "" = "" ->
  all_ws text = true ->
  route_operativa text = ROUTE_REVISAR /\ corresponde_a_laboral text = false.
Proof.
  intros Hlow Hblank.
  assert (_normalize text = "") as Hn.
  { unfold _normalize.
    replace (or_str (Some text) "") with text by now destruct text.
    now rewrite (strip_blank text Hblank), Hlow. }
  unfold route_operativa, corresponde_a_laboral. rewrite Hn. split; reflexivity.
Qed.

(** ** Validation, further *)

Lemma validate_found (case_id : string) (db : gmap string CaseRecord.t)
    (c : CaseRecord.t) :
  db !! str_upper case_id = Some c ->
  let d := CaseRecord.data c in
  validate_and_recheck case_id db =
    ([ ("status", VStr "ok");
       ("case_id", VStr (str_upper case_id));
       ("flags", VList (map VStr (compute_flags d)));
       ("jurisdiccion_probable", VStr (route_operativa (relato_total d)));
       ("corresponde_a_laboral_probable", VBool (corresponde_a_laboral (relato_total d)));
       ("state", VStr "PRE_CLASSIFIED") ],
     <[str_upper case_id :=
         CaseRecord.set_state PRE_CLASSIFIED
           (CaseRecord.set_data
              (CaseData.set_jurisdiccion_probable (Some (route_operativa (relato_total d)))
                 (CaseData.set_banderas (compute_flags d) d)) c)]> db).
Proof.
  intros Hc. cbv zeta. unfold validate_and_recheck. rewrite Hc. reflexivity.
Qed.

Lemma validate_stored (case_id : string) (db : gmap string CaseRecord.t)
    (c : CaseRecord.t) :
  db !! str_upper case_id = Some c ->
  exists c', snd (validate_and_recheck case_id db) !! str_upper case_id = Some c'
    /\ CaseData.banderas (CaseRecord.data c') = compute_flags (CaseRecord.data c)
    /\ CaseData.jurisdiccion_probable (CaseRecord.data c')
       = Some (route_operativa (relato_total (CaseRecord.data c)))
    /\ dict_get "flags" (fst (validate_and_recheck case_id db))
       = Some (VList (map VStr (compute_flags (CaseRecord.data c))))
    /\ dict_get "corresponde_a_laboral_probable" (fst (validate_and_recheck case_id db))
       = Some (VBool (corresponde_a_laboral (relato_total (CaseRecord.data c)))).
Proof.
  intros Hc. rewrite (validate_found case_id db c Hc). cbn [fst snd].
  rewrite lookup_insert_eq. eexists. split; [reflexivity |].
  destruct c as [cid st t1 t2 d chk ex]. destruct d. repeat split.
Qed.

Lemma in_flag_unless (b : bool) (m x : string) :
  In x (flag_unless b m) <-> b = false /\ m = x.
Proof.
  clear str_upper str_lower.
  destruct b; simpl; split; try tauto; intros [H _]; discriminate.
Qed.

Lemma flag_unless_sublist (b : bool) (m : string) : sublist (flag_unless b m) [m].
Proof. destruct b; simpl; [apply sublist_nil_l | reflexivity]. Qed.

Lemma compute_flags_sublist (d : CaseData.t) :
  sublist (compute_flags d) (MISSING_FLAGS ++ [FLAG_PENAL]).
Proof.
  unfold compute_flags, MISSING_FLAGS.
  repeat (apply (sublist_app _ [_] _ _); [apply flag_unless_sublist |]).
  destruct (any_in PENAL_SIGNALS _); [reflexivity | apply sublist_nil_l].
Qed.

(** X19. The flags of a validation come in the fixed order of the tests:
    the list stored and returned is a sub-list of the ten missing-field
    messages followed by the criminal-signal message, without repetition,
    so it has at most eleven entries. *)
Theorem flags_in_fixed_order (case_id : string) (db : gmap string CaseRecord.t)
    (c : CaseRecord.t) :
  db !! str_upper case_id = Some c ->
  exists c' flags,
    snd (validate_and_recheck case_id db) !! str_upper case_id = Some c'
    /\ CaseData.banderas (CaseRecord.data c') = flags
    /\ dict_get "flags" (fst (validate_and_recheck case_id db))
       = Some (VList (map VStr flags))
    /\ sublist flags (MISSING_FLAGS ++ [FLAG_PENAL])
    /\ NoDup flags
    /\ length flags <= 11.
Proof.
  intros Hc. destruct (validate_stored case_id db c Hc) as (c' & H1 & H2 & _ & H3 & _).
  exists c', (compute_flags (CaseRecord.data c)).
  split; [exact H1 |]. split; [exact H2 |]. split; [exact H3 |].
  pose proof (compute_flags_sublist (CaseRecord.data c)) as Hs.
  split; [exact Hs |]. split.
  - refine (sublist_NoDup _ _ _ Hs).
    unfold MISSING_FLAGS, FLAG_PENAL. cbn [app].
    repeat (apply NoDup_cons; split;
            [rewrite ?elem_of_cons, elem_of_nil; intuition discriminate |]).
    apply NoDup_nil_2.
  - apply sublist_length in Hs. exact Hs.
Qed.

Lemma in_compute_flags (x : string) (d : CaseData.t) :
  In x (compute_flags d) <->
    (truthy (CaseData.nombre d) = false /\ "Falta nombre." = x)
    \/ (truthy (CaseData.dui d) = false /\ "Falta DUI." = x)
    \/ (truthy (CaseData.contacto d) = false /\ "Falta contacto." = x)
    \/ (truthy (CaseData.empleador_nombre d) = false /\ "Falta empleador (nombre)." = x)
    \/ (truthy (CaseData.cargo d) = false /\ "Falta cargo." = x)
    \/ (truthy (CaseData.salario_monto d) && truthy (CaseData.salario_periodicidad d) = false
        /\ "Falta salario (monto/periodicidad)." = x)
    \/ (truthy (CaseData.fecha_inicio d) = false /\ "Falta fecha inicio relación." = x)
    \/ (truthy (CaseData.fecha_despido_ultimo_pago d) = false
        /\ "Falta fecha despido/último pago." = x)
    \/ (truthy (CaseData.relato d) = false /\ "Falta relato base (del agente general)." = x)
    \/ (truthy (CaseData.pretension d) = false /\ "Falta pretensión." = x)
    \/ (any_in PENAL_SIGNALS (_normalize (relato_total d)) = true /\ FLAG_PENAL = x).
Proof.
  clear str_upper.
  unfold compute_flags. rewrite !in_app_iff, !in_flag_unless.
  destruct (any_in PENAL_SIGNALS _); simpl; intuition congruence.
Qed.

(** X20. Every validated field is tested on its own, without
    short-circuit: a missing-field message is among the flags exactly when
    its field is absent or empty (for the wage message, when the amount or
    the periodicity is). *)
Theorem each_flag_iff_field_missing (case_id : string)
    (db : gmap string CaseRecord.t) (c : CaseRecord.t) :
  db !! str_upper case_id = Some c ->
  exists c',
    snd (validate_and_recheck case_id db) !! str_upper case_id = Some c'
    /\ let flags := CaseData.banderas (CaseRecord.data c') in
       let d := CaseRecord.data c in
       (In "Falta nombre." flags <-> truthy (CaseData.nombre d) = false)
       /\ (In "Falta DUI." flags <-> truthy (CaseData.dui d) = false)
       /\ (In "Falta contacto." flags <-> truthy (CaseData.contacto d) = false)
       /\ (In "Falta empleador (nombre)." flags
           <-> truthy (CaseData.empleador_nombre d) = false)
       /\ (In "Falta cargo." flags <-> truthy (CaseData.cargo d) = false)
       /\ (In "Falta salario (monto/periodicidad)." flags
           <-> truthy (CaseData.salario_monto d) = false
               \/ truthy (CaseData.salario_periodicidad d) = false)
       /\ (In "Falta fecha inicio relación." flags
           <-> truthy (CaseData.fecha_inicio d) = false)
       /\ (In "Falta fecha despido/último pago." flags
           <-> truthy (CaseData.fecha_despido_ultimo_pago d) = false)
       /\ (In "Falta relato base (del agente general)." flags
           <-> truthy (CaseData.relato d) = false)
       /\ (In "Falta pretensión." flags <-> truthy (CaseData.pretension d) = false).
Proof.
  intros Hc. destruct (validate_stored case_id db c Hc) as (c' & H1 & H2 & _).
  exists c'. split; [exact H1 |]. cbv zeta. rewrite H2.
  repeat split; rewrite in_compute_flags; unfold FLAG_PENAL; intros H;
    match type of H with
    | _ \/ _ \/ _ \/ _ =>
      repeat (destruct H as [[H He] | H];
              [first [discriminate He | exact H | now apply andb_false_iff] |]);
      destruct H as [H He]; discriminate He
    | _ =>
      repeat first
        [ left; split; [first [exact H | now apply andb_false_iff] | reflexivity]
        | right ]
    end.
Qed.

(** X21. Flag, label and verdict of one validation agree: the
    criminal-signal flag is among the flags exactly when the stored routing
    label is the criminal one, and the result says "labor" exactly when the
    stored label is the labor one. *)
Theorem penal_flag_matches_route (case_id : string)
    (db : gmap string CaseRecord.t) (c : CaseRecord.t) :
  db !! str_upper case_id = Some c ->
  exists c',
    snd (validate_and_recheck case_id db) !! str_upper case_id = Some c'
    /\ (In FLAG_PENAL (CaseData.banderas (CaseRecord.data c'))
        <-> CaseData.jurisdiccion_probable (CaseRecord.data c') = Some ROUTE_PENAL)
    /\ (dict_get "corresponde_a_laboral_probable"
          (fst (validate_and_recheck case_id db)) = Some (VBool true)
        <-> CaseData.jurisdiccion_probable (CaseRecord.data c') = Some ROUTE_LABORAL).
Proof.
  intros Hc.
  destruct (validate_stored case_id db c Hc) as (c' & H1 & H2 & H3 & _ & H4).
  exists c'. split; [exact H1 |]. rewrite H2, H3, H4.
  destruct route_labels_distinct as (D1 & D2 & D3). split.
  - rewrite in_compute_flags. unfold FLAG_PENAL at 1. unfold route_operativa.
    destruct (any_in PENAL_SIGNALS _).
    + split; [reflexivity | intros _; repeat right; now split].
    + split.
      * intros H.
        repeat (destruct H as [[_ H] | H]; [discriminate H |]).
        destruct H as [H _]. discriminate H.
      * destruct (any_in LABORAL_KEYWORDS _); congruence.
  - pose proof (verdict_route_iff (relato_total (CaseRecord.data c))) as Hv.
    split; intros [= H]; apply Hv in H; now rewrite H.
Qed.

Lemma compute_flags_complete (d : CaseData.t) :
  all_captured d = true ->
  compute_flags d =
    if any_in PENAL_SIGNALS (_normalize (relato_total d)) then [FLAG_PENAL] else [].
Proof.
  unfold all_captured, compute_flags. rewrite !andb_true_iff.
  intros (((((((((H1 & H2) & H3) & H4) & H5) & (H6 & H7)) & H8) & H9) & H10) & H11).
  now rewrite H1, H2, H3, H4, H5, H6, H7, H8, H9, H10, H11.
Qed.

(** X22. A validation returns no flag exactly when all ten validated
    fields are captured (non-empty) and no criminal-signal phrase occurs
    in the normalised combined narrative. *)
Theorem no_flags_iff_complete (case_id : string) (db : gmap string CaseRecord.t)
    (c : CaseRecord.t) :
  db !! str_upper case_id = Some c ->
  let d := CaseRecord.data c in
  dict_get "flags" (fst (validate_and_recheck case_id db)) = Some (VList [])
  <-> all_captured d = true
      /\ ~ exists s, In s PENAL_SIGNALS /\ occurs s (_normalize (relato_total d)).
Proof.
  intros Hc d.
  destruct (validate_stored case_id db c Hc) as (c' & _ & _ & _ & -> & _).
  fold d. rewrite <- any_in_spec.
  assert (compute_flags d = [] <->
          all_captured d = true
          /\ any_in PENAL_SIGNALS (_normalize (relato_total d)) <> true) as Hiff.
  { split.
    - unfold compute_flags, all_captured. intros Hnil.
      repeat match type of Hnil with
             | context [flag_unless (truthy ?x && _)] =>
               destruct (truthy x); cbn [flag_unless app andb] in Hnil;
               [| discriminate Hnil]
             | context [flag_unless (truthy ?x)] =>
               destruct (truthy x); cbn [flag_unless app andb] in Hnil;
               [| discriminate Hnil]
             end.
      destruct (any_in PENAL_SIGNALS _); [discriminate Hnil |].
      split; [reflexivity | discriminate].
    - intros [Hall Hp]. rewrite (compute_flags_complete d Hall).
      destruct (any_in PENAL_SIGNALS _); [now contradiction Hp | reflexivity]. }
  rewrite <- Hiff. split.
  - intros [= H]. now destruct (compute_flags d).
  - now intros ->.
Qed.

(** ** The expediente, further *)

Lemma doc_line_lookup_eq (chk1 chk2 : gmap string DocumentChecklistItem.t)
    (d : string) :
  chk1 !! d = chk2 !! d -> doc_line chk1 d = doc_line chk2 d.
Proof.
  clear str_upper str_lower.
  intros H. unfold doc_line.
  assert (forall chk : gmap string DocumentChecklistItem.t,
            (if decide (chk = ∅) then None else chk !! d) = chk !! d) as Hl.
  { intros chk. destruct (decide (chk = ∅)) as [->|]; [| reflexivity].
    now rewrite lookup_empty. }
  now rewrite !Hl, H.
Qed.

Lemma doc_line_unmarked (chk : gmap string DocumentChecklistItem.t) (d : string) :
  chk !! d = Some (DocumentChecklistItem.new d) ->
  doc_line chk d = doc_line ∅ d.
Proof.
  clear str_upper str_lower.
  intros H. unfold doc_line.
  destruct (decide (chk = ∅)) as [->|Hne]; [reflexivity |].
  rewrite H. destruct (decide (∅ = ∅)); [reflexivity | contradiction].
Qed.

Lemma render_expediente_lines (cid : string) (c1 c2 : CaseRecord.t) :
  CaseRecord.data c1 = CaseRecord.data c2 ->
  (forall d, In d DOCUMENTOS_BASE ->
     doc_line (CaseRecord.checklist c1) d = doc_line (CaseRecord.checklist c2) d) ->
  render_expediente cid c1 = render_expediente cid c2.
Proof.
  clear str_upper str_lower.
  intros Hd Hl. unfold render_expediente. rewrite Hd.
  now rewrite (map_ext_in _ _ DOCUMENTOS_BASE Hl).
Qed.

(** X23. A document marked under a name that is not in [DOCUMENTOS_BASE]
    is stored but never printed: the expediente generated after such a
    marking is the text that would have been generated without it. *)
Theorem expediente_ignores_unlisted_documents (case_id doc_name : string)
    (existe : bool) (nota : option string) (db : gmap string CaseRecord.t)
    (c : CaseRecord.t) :
  db !! str_upper case_id = Some c ->
  ~ In doc_name DOCUMENTOS_BASE ->
  dict_get "expediente"
    (fst (generate_expediente case_id
            (snd (mark_document case_id doc_name existe nota db))))
  = dict_get "expediente" (fst (generate_expediente case_id db)).
Proof.
  intros Hc Hnot. unfold generate_expediente, mark_document.
  rewrite Hc. cbn [fst snd]. rewrite lookup_insert_eq. cbn [fst dict_get String.eqb].
  do 2 f_equal. apply render_expediente_lines; [reflexivity |].
  intros d Hd.
  cbn [CaseRecord.checklist CaseRecord.set_state CaseRecord.set_checklist].
  assert (doc_name <> d) as Hne by (intros ->; contradiction).
  destruct (decide (CaseRecord.checklist c = ∅)) as [He|He].
  - rewrite He. apply doc_line_unmarked.
    rewrite lookup_insert_ne by assumption. now apply base_checklist_complete.
  - apply doc_line_lookup_eq. now rewrite lookup_insert_ne by assumption.
Qed.

Lemma append_assoc (s t u : string) : (s +:+ t) +:+ u = s +:+ t +:+ u.
Proof.
  clear str_upper str_lower.
  induction s as [|a s IH]; [reflexivity |].
  now rewrite !append_cons, IH.
Qed.

Lemma join_cons (sep x y : string) (l : list string) :
  join sep (x :: y :: l) = x +:+ sep +:+ join sep (y :: l).
Proof. reflexivity. Qed.

Lemma join_snoc (sep y : string) (l : list string) :
  l <> [] -> join sep (l ++ [y]) = join sep l +:+ sep +:+ y.
Proof.
  clear str_upper str_lower.
  induction l as [|x l IH]; [contradiction |]. intros _.
  destruct l as [|x' l]; [reflexivity |].
  change ((x :: x' :: l) ++ [y]) with (x :: x' :: (l ++ [y])).
  rewrite !join_cons.
  change (x' :: l ++ [y]) with ((x' :: l) ++ [y]).
  rewrite IH by discriminate. now rewrite !append_assoc.
Qed.

Lemma join_frame (sep h1 h2 last : string) (mid : list string) :
  mid <> [] ->
  join sep (h1 :: h2 :: mid ++ [last])
  = h1 +:+ sep +:+ h2 +:+ sep +:+ join sep mid +:+ sep +:+ last.
Proof.
  clear str_upper str_lower.
  intros Hmid. rewrite join_cons.
  change (h2 :: mid ++ [last]) with ((h2 :: mid) ++ [last]).
  rewrite join_snoc by discriminate.
  destruct mid as [|x mid]; [contradiction |].
  rewrite join_cons. now rewrite !append_assoc.
Qed.

(** X24. Every generated expediente opens with the title line and the line
    of the upper-cased case identifier and closes with the notice of
    mandatory final human review; the text returned is the text stored. *)
Theorem expediente_opening_and_closing (case_id : string)
    (db : gmap string CaseRecord.t) (c : CaseRecord.t) :
  db !! str_upper case_id = Some c ->
  exists text body c',
    dict_get "expediente" (fst (generate_expediente case_id db)) = Some (VStr text)
    /\ snd (generate_expediente case_id db) !! str_upper case_id = Some c'
    /\ CaseRecord.expediente c' = Some text
    /\ text = "=== EXPEDIENTE (BORRADOR OPERATIVO) ===" +:+ nl
              +:+ "Case ID: " +:+ str_upper case_id +:+ nl
              +:+ body +:+ nl
              +:+ "Nota: revisión humana final obligatoria.".
Proof.
  intros Hc. unfold generate_expediente. rewrite Hc. cbn [fst snd].
  rewrite lookup_insert_eq.
  eexists. eexists. eexists.
  split; [reflexivity |]. split; [reflexivity |]. split; [reflexivity |].
  unfold render_expediente. cbv zeta.
  match goal with
  | |- join nl ((?h1 :: ?h2 :: ?l1) ++ ?docs ++ ?l2 ++ ?fl ++ [?e; ?n]) = _ =>
    change (join nl ((h1 :: h2 :: l1) ++ docs ++ l2 ++ fl ++ [e; n]))
      with (join nl (h1 :: h2 :: l1 ++ docs ++ l2 ++ fl ++ [e; n]));
    replace (l1 ++ docs ++ l2 ++ fl ++ [e; n])
      with ((l1 ++ docs ++ l2 ++ fl ++ [e]) ++ [n])
      by (now rewrite <- !app_assoc)
  end.
  rewrite join_frame by discriminate. reflexivity.
Qed.

(** ** A complete capture *)

Lemma general_case_truthy (cid : string) (hard : GeneralCase) :
  general_get cid HARDCODED_GENERAL_CASES = Some hard ->
  truthy (Some (gc_relato hard)) = true.
Proof.
  clear str_upper str_lower.
  unfold HARDCODED_GENERAL_CASES. cbn [general_get].
  destruct (String.eqb cid "LAB-0001"); [intros [= <-]; reflexivity |].
  destruct (String.eqb cid "LAB-0002"); [intros [= <-]; reflexivity |].
  discriminate.
Qed.

(** X25. After the narrative is pulled for a registered identifier and the
    identity and the required fields are captured with non-empty answers,
    validation reports no missing field: its flags are empty or the
    criminal-signal flag alone. *)
Theorem complete_capture_has_no_missing_flag (ts : string * string)
    (case_id dui nombre contacto e cg m p i f r : string)
    (db : gmap string CaseRecord.t) :
  has_narrative (Pull_story_from_general case_id) = true ->
  truthy (Some dui) && truthy (Some nombre) && truthy (Some contacto)
  && truthy (Some e) && truthy (Some cg) && truthy (Some m) && truthy (Some p)
  && truthy (Some i) && truthy (Some f) && truthy (Some r) = true ->
  let db1 := snd (pull_story_from_general ts case_id db) in
  let db2 := snd (capture_identity ts case_id dui nombre contacto db1) in
  let db3 := snd (capture_required_fields case_id e cg m p i f r db2) in
  dict_get "flags" (fst (validate_and_recheck case_id db3)) = Some (VList [])
  \/ dict_get "flags" (fst (validate_and_recheck case_id db3))
     = Some (VList [VStr FLAG_PENAL]).
Proof.
  intros Hn Hall. cbv zeta.
  unfold has_narrative in Hn.
  destruct (general_get (str_upper case_id) HARDCODED_GENERAL_CASES)
    as [hard|] eqn:Eg; [| discriminate].
  pose proof (general_case_truthy _ _ Eg) as Hrel.
  rewrite !andb_true_iff in Hall.
  destruct Hall as (((((((((A1 & A2) & A3) & A4) & A5) & A6) & A7) & A8) & A9) & A10).
  unfold pull_story_from_general. rewrite setdefault_record_spec, Eg.
  assert (forall c0 db0,
    let c1 := CaseRecord.set_state DETAILS_CAPTURED
                (CaseRecord.set_data
                   (CaseData.set_relato (Some (gc_relato hard)) (CaseRecord.data c0)) c0) in
    let db1 := <[str_upper case_id := c1]> db0 in
    let db2 := snd (capture_identity ts case_id dui nombre contacto db1) in
    let db3 := snd (capture_required_fields case_id e cg m p i f r db2) in
    dict_get "flags" (fst (validate_and_recheck case_id db3)) = Some (VList [])
    \/ dict_get "flags" (fst (validate_and_recheck case_id db3))
       = Some (VList [VStr FLAG_PENAL])) as Hgen.
  { intros c0 db0. cbv zeta.
    unfold capture_identity. rewrite setdefault_record_spec, lookup_insert_eq.
    cbn [fst snd]. unfold capture_required_fields. rewrite lookup_insert_eq.
    cbn [fst snd].
    match goal with
    | |- context [validate_and_recheck case_id (<[_ := ?c3]> ?m)] =>
      destruct (validate_stored case_id (<[str_upper case_id := c3]> m) c3
                  (lookup_insert_eq _ _ _)) as (c' & _ & _ & _ & Hfl & _);
      rewrite Hfl;
      assert (all_captured (CaseRecord.data c3) = true) as Hcap
    end.
    { destruct c0 as [cid0 st t1 t2 d0 chk ex]. destruct d0.
      unfold all_captured. cbn.
      cbn in A1, A2, A3, A4, A5, A6, A7, A8, A9, A10, Hrel.
      now rewrite A1, A2, A3, A4, A5, A6, A7, A8, A9, A10, Hrel. }
    rewrite (compute_flags_complete _ Hcap).
    destruct (any_in PENAL_SIGNALS _); [right | left]; reflexivity. }
  destruct (db !! str_upper case_id) as [c0|]; cbn [fst snd]; apply Hgen.
Qed.

End Agent.

(** ** The statements on concrete inputs

    The tools are run with [upper_ascii] and [lower_ascii]; on the texts
    used here, whose cased letters outside ASCII are already in the wanted
    case, these agree with [str.upper] and [str.lower]. *)

Lemma penal_signal_has_priority_witness :
  In "extorsión" PENAL_SIGNALS
  /\ occurs "extorsión"
       (_normalize lower_ascii
          "  Sufrí   EXTORSIóN del empleador, no hubo pago de salario ")
  /\ corresponde_a_laboral lower_ascii
       "  Sufrí   EXTORSIóN del empleador, no hubo pago de salario " = false
  /\ route_operativa lower_ascii
       "  Sufrí   EXTORSIóN del empleador, no hubo pago de salario " = ROUTE_PENAL.
Proof.
  assert (In "extorsión" PENAL_SIGNALS) as H1 by (simpl; tauto).
  assert (occurs "extorsión"
            (_normalize lower_ascii
               "  Sufrí   EXTORSIóN del empleador, no hubo pago de salario ")) as H2
    by (exists "sufrí ", " del empleador, no hubo pago de salario"; reflexivity).
  split; [exact H1 |]. split; [exact H2 |].
  exact (penal_signal_has_priority lower_ascii _ _ H1 H2).
Defined.

Lemma absent_record_not_found_witness :
  requires_record (Handoff_to_human "lab-0007" None) = true
  /\ sample_db !! upper_ascii (op_case_id (Handoff_to_human "lab-0007" None)) = None
  /\ run upper_ascii lower_ascii sample_ts (Handoff_to_human "lab-0007" None) sample_db
     = (error_result MSG_NOT_FOUND, sample_db).
Proof.
  assert (sample_db !! upper_ascii (op_case_id (Handoff_to_human "lab-0007" None)) = None)
    as H by (vm_compute; reflexivity).
  split; [reflexivity |]. split; [exact H |].
  exact (absent_record_not_found upper_ascii lower_ascii sample_ts
           (Handoff_to_human "lab-0007" None) sample_db eq_refl H).
Defined.

Lemma pull_story_without_narrative_witness :
  general_get (upper_ascii "lab-9999") HARDCODED_GENERAL_CASES = None
  /\ (let cid := upper_ascii "lab-9999" in
      let out := pull_story_from_general upper_ascii sample_ts "lab-9999" sample_db in
      fst out = error_result MSG_NO_RELATO
      /\ (is_Some (sample_db !! cid) -> snd out = sample_db)
      /\ (sample_db !! cid = None
          -> snd out = <[cid := CaseRecord.new sample_ts cid]> sample_db)
      /\ (forall k c, sample_db !! k = Some c -> snd out !! k = Some c)).
Proof.
  assert (general_get (upper_ascii "lab-9999") HARDCODED_GENERAL_CASES = None)
    as H by reflexivity.
  split; [exact H |].
  exact (pull_story_without_narrative upper_ascii sample_ts "lab-9999" sample_db H).
Defined.

Lemma case_insensitive_addressing_witness :
  same_call (Add_more_info "lab-0001" "Me deben dos quincenas.")
            (Add_more_info "LAB-0001" "Me deben dos quincenas.")
  /\ upper_ascii (op_case_id (Add_more_info "lab-0001" "Me deben dos quincenas."))
     = upper_ascii (op_case_id (Add_more_info "LAB-0001" "Me deben dos quincenas."))
  /\ run upper_ascii lower_ascii sample_ts
       (Add_more_info "lab-0001" "Me deben dos quincenas.") sample_db
     = run upper_ascii lower_ascii sample_ts
         (Add_more_info "LAB-0001" "Me deben dos quincenas.") sample_db.
Proof.
  split; [reflexivity |]. split; [reflexivity |].
  exact (case_insensitive_addressing upper_ascii lower_ascii sample_ts
           (Add_more_info "lab-0001" "Me deben dos quincenas.")
           (Add_more_info "LAB-0001" "Me deben dos quincenas.")
           sample_db eq_refl eq_refl).
Defined.

Lemma generate_expediente_deterministic_witness :
  sample_db !! upper_ascii "lab-0001" = Some sample_record
  /\ sample_db_later !! upper_ascii "lab-0001"
     = Some (CaseRecord.set_state HANDOFF_TO_HUMAN (CaseRecord.new later_ts "LAB-0001"))
  /\ fst (generate_expediente upper_ascii "lab-0001" sample_db)
     = fst (generate_expediente upper_ascii "lab-0001" sample_db_later)
  /\ generate_expediente upper_ascii "lab-0001"
       (snd (generate_expediente upper_ascii "lab-0001" sample_db))
     = generate_expediente upper_ascii "lab-0001" sample_db.
Proof.
  assert (sample_db !! upper_ascii "lab-0001" = Some sample_record)
    as H1 by (vm_compute; reflexivity).
  assert (sample_db_later !! upper_ascii "lab-0001"
          = Some (CaseRecord.set_state HANDOFF_TO_HUMAN
                    (CaseRecord.new later_ts "LAB-0001")))
    as H2 by (vm_compute; reflexivity).
  split; [exact H1 |]. split; [exact H2 |].
  pose proof (generate_expediente_deterministic upper_ascii "lab-0001"
                sample_db sample_db_later _ _ H1 H2 eq_refl eq_refl) as H.
  cbv zeta in H. destruct H as (Ha & _ & _ & _ & Hb).
  split; [exact Ha | exact Hb].
Defined.

Lemma validate_replaces_flags_witness :
  sample_db !! upper_ascii "lab-0001" = Some sample_record
  /\ required_unset (CaseRecord.data sample_record)
  /\ exists c',
      snd (validate_and_recheck upper_ascii lower_ascii "lab-0001" sample_db)
      = <[upper_ascii "lab-0001" := c']> sample_db
      /\ CaseData.banderas (CaseRecord.data c') = MISSING_FLAGS.
Proof.
  assert (sample_db !! upper_ascii "lab-0001" = Some sample_record)
    as H1 by (vm_compute; reflexivity).
  assert (required_unset (CaseRecord.data sample_record))
    as H2 by (repeat split; reflexivity).
  split; [exact H1 |]. split; [exact H2 |].
  pose proof (validate_replaces_flags upper_ascii lower_ascii "lab-0001"
                sample_db sample_record H1) as H.
  cbv zeta in H. destruct H as (c' & Hs & _ & _ & Hun).
  exists c'. split; [exact Hs |].
  destruct (Hun H2) as (Hb & _). rewrite Hb. reflexivity.
Defined.

Lemma mark_document_before_request_witness :
  sample_db !! upper_ascii "lab-0001" = Some sample_record
  /\ CaseRecord.checklist sample_record = ∅
  /\ exists c',
      snd (mark_document upper_ascii "lab-0001" "Carta de despido (si existe)" true
             (Some "original") sample_db)
      = <[upper_ascii "lab-0001" := c']> sample_db
      /\ CaseRecord.checklist c' !! "Carta de despido (si existe)"
         = Some (DocumentChecklistItem.mk "Carta de despido (si existe)" false true
                   (Some "original"))
      /\ (forall d, In d DOCUMENTOS_BASE -> is_Some (CaseRecord.checklist c' !! d)).
Proof.
  assert (sample_db !! upper_ascii "lab-0001" = Some sample_record)
    as H1 by (vm_compute; reflexivity).
  split; [exact H1 |]. split; [reflexivity |].
  pose proof (mark_document_before_request upper_ascii "lab-0001"
                "Carta de despido (si existe)" true (Some "original")
                sample_db sample_record H1 eq_refl) as H.
  cbv zeta in H. destruct H as (_ & c' & Hs & _ & _ & Hi & _ & Hall).
  exists c'. split; [exact Hs |]. split; [exact Hi | exact Hall].
Defined.

Lemma mark_document_keeps_note_witness :
  sample_db_docs !! upper_ascii "lab-0001" = Some sample_record_docs
  /\ CaseRecord.checklist sample_record_docs !! "Comprobantes de pago" = Some sample_item
  /\ exists c' item',
      snd (mark_document upper_ascii "lab-0001" "Comprobantes de pago" false
             (Some "") sample_db_docs)
      = <[upper_ascii "lab-0001" := c']> sample_db_docs
      /\ CaseRecord.checklist c' !! "Comprobantes de pago" = Some item'
      /\ DocumentChecklistItem.recibido item' = false
      /\ DocumentChecklistItem.nota item' = Some "copia simple".
Proof.
  assert (sample_db_docs !! upper_ascii "lab-0001" = Some sample_record_docs)
    as H1 by (vm_compute; reflexivity).
  assert (CaseRecord.checklist sample_record_docs !! "Comprobantes de pago"
          = Some sample_item) as H2 by (vm_compute; reflexivity).
  split; [exact H1 |]. split; [exact H2 |].
  pose proof (mark_document_keeps_note upper_ascii "lab-0001" "Comprobantes de pago"
                false (Some "") sample_db_docs sample_record_docs sample_item H1 H2) as H.
  cbv zeta in H. destruct H as (c' & item' & Hs & Hi & Hr & Hkeep & _).
  exists c', item'. split; [exact Hs |]. split; [exact Hi |]. split; [exact Hr |].
  exact (Hkeep eq_refl).
Defined.

(** C1, as first stated, fails: for "LAB-9999", which has no registered
    narrative and no record yet, the call returns the error result and
    still adds a record to the store. *)
Lemma pull_story_error_creates_record :
  general_get (upper_ascii "LAB-9999") HARDCODED_GENERAL_CASES = None
  /\ fst (pull_story_from_general upper_ascii sample_ts "LAB-9999" sample_db)
     = error_result MSG_NO_RELATO
  /\ sample_db !! "LAB-9999" = None
  /\ snd (pull_story_from_general upper_ascii sample_ts "LAB-9999" sample_db) !! "LAB-9999"
     = Some (CaseRecord.new sample_ts "LAB-9999")
  /\ snd (pull_story_from_general upper_ascii sample_ts "LAB-9999" sample_db) <> sample_db.
Proof.
  assert (sample_db !! "LAB-9999" = None) as Hbefore by (vm_compute; reflexivity).
  assert (snd (pull_story_from_general upper_ascii sample_ts "LAB-9999" sample_db)
            !! "LAB-9999" = Some (CaseRecord.new sample_ts "LAB-9999")) as Hafter
    by (vm_compute; reflexivity).
  split; [reflexivity |]. split; [reflexivity |].
  split; [exact Hbefore |]. split; [exact Hafter |].
  intros Heq. rewrite Heq, Hbefore in Hafter. discriminate.
Qed.

(** C2, as first stated, fails: the error result of a tool called on an
    absent record has no case identifier. *)
Lemma error_result_lacks_case_id :
  dict_get "status"
    (fst (run upper_ascii lower_ascii sample_ts
            (Add_more_info "LAB-9999" "Me deben dos quincenas.") sample_db))
  = Some (VStr "error")
  /\ dict_get "case_id"
       (fst (run upper_ascii lower_ascii sample_ts
               (Add_more_info "LAB-9999" "Me deben dos quincenas.") sample_db))
     = None.
Proof. split; vm_compute; reflexivity. Qed.

(** ** Runs of the tools *)

Example strip_sample :
  strip (" " +:+ nl +:+ "  Hola  mundo " +:+ nl) = "Hola  mundo".
Proof. reflexivity. Qed.

Example sub_ws_sample :
  sub_ws ("a " +:+ nl +:+ " b" +:+ nl +:+ "c") = "a b c".
Proof. reflexivity. Qed.

Example unicode_space_sample :
  sub_ws (strip (nbsp +:+ "día" +:+ em_space +:+ nbsp +:+ " uno" +:+ em_space))
  = "día uno".
Proof. reflexivity. Qed.

Example str_in_sample :
  str_in "arma" "una farmacia" = true /\ str_in "armas" "una farmacia" = false.
Proof. split; reflexivity. Qed.

Example route_salario :
  route_operativa lower_ascii "No me pagaron el Salario de marzo" = ROUTE_LABORAL
  /\ corresponde_a_laboral lower_ascii "No me pagaron el Salario de marzo" = true.
Proof. split; vm_compute; reflexivity. Qed.

Example route_neither :
  route_operativa lower_ascii "Buenos días" = ROUTE_REVISAR
  /\ corresponde_a_laboral lower_ascii "Buenos días" = false.
Proof. split; vm_compute; reflexivity. Qed.

Example route_substring_collision :
  route_operativa lower_ascii "Fui a la farmacia" = ROUTE_PENAL.
Proof. vm_compute; reflexivity. Qed.

Example guided_flow_outcome :
  exists c, run_all upper_ascii lower_ascii guided_flow ∅ !! "LAB-0001" = Some c
    /\ CaseRecord.state c = HANDOFF_TO_HUMAN
    /\ CaseData.jurisdiccion_probable (CaseRecord.data c) = Some ROUTE_LABORAL
    /\ CaseData.banderas (CaseRecord.data c) = [].
Proof. eexists. split; [vm_compute; reflexivity |]. repeat split. Qed.

(** ** Further statements on concrete inputs *)

Lemma run_frame_other_records_witness :
  "LAB-0002" <> upper_ascii (op_case_id (Handoff_to_human "lab-0001" None))
  /\ snd (run upper_ascii lower_ascii sample_ts
            (Handoff_to_human "lab-0001" None) sample_db_two) !! "LAB-0002"
     = sample_db_two !! "LAB-0002".
Proof.
  assert ("LAB-0002" <> upper_ascii (op_case_id (Handoff_to_human "lab-0001" None)))
    as H by (vm_compute; discriminate).
  split; [exact H |].
  exact (run_frame_other_records upper_ascii lower_ascii sample_ts
           (Handoff_to_human "lab-0001" None) sample_db_two "LAB-0002" H).
Defined.

Lemma sample_db_wf : store_wf upper_ascii sample_db.
Proof.
  intros k c H. unfold sample_db in H.
  apply lookup_singleton_Some in H as [<- <-].
  split; [reflexivity | now exists "lab-0001"].
Defined.

Lemma store_wf_preserved_witness :
  store_wf upper_ascii sample_db
  /\ store_wf upper_ascii (run_all upper_ascii lower_ascii guided_flow sample_db).
Proof.
  split; [exact sample_db_wf |].
  exact (store_wf_preserved upper_ascii lower_ascii guided_flow sample_db sample_db_wf).
Defined.

Lemma timestamps_never_refreshed_witness :
  sample_db !! "LAB-0001" = Some sample_record
  /\ exists c', run_all upper_ascii lower_ascii guided_flow sample_db !! "LAB-0001" = Some c'
       /\ CaseRecord.case_id c' = "LAB-0001"
       /\ CaseRecord.created_at c' = fst sample_ts
       /\ CaseRecord.updated_at c' = snd sample_ts.
Proof.
  assert (sample_db !! "LAB-0001" = Some sample_record) as H by (vm_compute; reflexivity).
  split; [exact H |].
  exact (timestamps_never_refreshed upper_ascii lower_ascii guided_flow sample_db
           "LAB-0001" sample_record H).
Defined.

Lemma tools_accept_any_state_witness :
  sample_db_later !! upper_ascii (op_case_id (Add_more_info "lab-0001" "Hubo testigos."))
  = Some (CaseRecord.set_state HANDOFF_TO_HUMAN (CaseRecord.new later_ts "LAB-0001"))
  /\ has_narrative upper_ascii (Add_more_info "lab-0001" "Hubo testigos.") = true
  /\ dict_get "status"
       (fst (run upper_ascii lower_ascii sample_ts
               (Add_more_info "lab-0001" "Hubo testigos.") sample_db_later))
     = Some (VStr "ok")
  /\ exists c',
      snd (run upper_ascii lower_ascii sample_ts
             (Add_more_info "lab-0001" "Hubo testigos.") sample_db_later)
        !! upper_ascii (op_case_id (Add_more_info "lab-0001" "Hubo testigos."))
      = Some c'
      /\ CaseRecord.state c' = DETAILS_CAPTURED.
Proof.
  assert (sample_db_later
            !! upper_ascii (op_case_id (Add_more_info "lab-0001" "Hubo testigos."))
          = Some (CaseRecord.set_state HANDOFF_TO_HUMAN
                    (CaseRecord.new later_ts "LAB-0001")))
    as H by (vm_compute; reflexivity).
  split; [exact H |]. split; [reflexivity |].
  exact (tools_accept_any_state upper_ascii lower_ascii sample_ts
           (Add_more_info "lab-0001" "Hubo testigos.") sample_db_later _ H eq_refl).
Defined.

Lemma expediente_changes_only_by_generate_witness :
  writes_expediente (Add_more_info "lab-0001" "Hubo testigos.") = false
  /\ sample_db !! "LAB-0001" = Some sample_record
  /\ exists c',
      snd (run upper_ascii lower_ascii sample_ts
             (Add_more_info "lab-0001" "Hubo testigos.") sample_db) !! "LAB-0001"
      = Some c'
      /\ CaseRecord.expediente c' = CaseRecord.expediente sample_record.
Proof.
  assert (sample_db !! "LAB-0001" = Some sample_record) as H by (vm_compute; reflexivity).
  split; [reflexivity |]. split; [exact H |].
  exact (expediente_changes_only_by_generate upper_ascii lower_ascii sample_ts
           (Add_more_info "lab-0001" "Hubo testigos.") sample_db "LAB-0001"
           sample_record eq_refl H).
Defined.

Lemma checklist_changes_only_by_document_tools_witness :
  writes_checklist (Validate_and_recheck "lab-0001") = false
  /\ sample_db_docs !! "LAB-0001" = Some sample_record_docs
  /\ exists c',
      snd (run upper_ascii lower_ascii sample_ts
             (Validate_and_recheck "lab-0001") sample_db_docs) !! "LAB-0001"
      = Some c'
      /\ CaseRecord.checklist c' = CaseRecord.checklist sample_record_docs.
Proof.
  assert (sample_db_docs !! "LAB-0001" = Some sample_record_docs)
    as H by (vm_compute; reflexivity).
  split; [reflexivity |]. split; [exact H |].
  exact (checklist_changes_only_by_document_tools upper_ascii lower_ascii sample_ts
           (Validate_and_recheck "lab-0001") sample_db_docs "LAB-0001"
           sample_record_docs eq_refl H).
Defined.

Lemma data_fields_have_own_writers_witness :
  sample_db !! "LAB-0001" = Some sample_record
  /\ exists c',
      snd (run upper_ascii lower_ascii sample_ts
             (Capture_identity "lab-0001" "00000000-0" "Ana" "ana@x.com") sample_db)
        !! "LAB-0001" = Some c'
      /\ CaseData.relato (CaseRecord.data c') = CaseData.relato (CaseRecord.data sample_record)
      /\ CaseData.banderas (CaseRecord.data c')
         = CaseData.banderas (CaseRecord.data sample_record).
Proof.
  assert (sample_db !! "LAB-0001" = Some sample_record) as H by (vm_compute; reflexivity).
  split; [exact H |].
  destruct (data_fields_have_own_writers upper_ascii lower_ascii sample_ts
              (Capture_identity "lab-0001" "00000000-0" "Ana" "ana@x.com")
              sample_db "LAB-0001" sample_record H)
    as (c' & Hc' & _ & _ & Hn & Hcl).
  exists c'. split; [exact Hc' |].
  split; [exact (proj1 (Hn eq_refl)) | exact (proj2 (Hcl eq_refl))].
Defined.

Lemma sample_db_checklists_wf : checklists_wf sample_db.
Proof.
  intros k c H. unfold sample_db in H.
  apply lookup_singleton_Some in H as [<- <-].
  split; [now left |]. intros k i Hi. discriminate Hi.
Defined.

Lemma checklists_wf_preserved_witness :
  checklists_wf sample_db
  /\ checklists_wf (run_all upper_ascii lower_ascii guided_flow sample_db).
Proof.
  split; [exact sample_db_checklists_wf |].
  exact (checklists_wf_preserved upper_ascii lower_ascii guided_flow sample_db
           sample_db_checklists_wf).
Defined.

Lemma mark_document_upsert_witness :
  sample_db_docs !! upper_ascii "lab-0001" = Some sample_record_docs
  /\ exists c',
      snd (mark_document upper_ascii "lab-0001" "Acta notarial" true (Some "pendiente")
             sample_db_docs)
      = <[upper_ascii "lab-0001" := c']> sample_db_docs
      /\ CaseRecord.checklist c' !! "Acta notarial"
         = Some (DocumentChecklistItem.mk "Acta notarial" false true (Some "pendiente")).
Proof.
  assert (sample_db_docs !! upper_ascii "lab-0001" = Some sample_record_docs)
    as H by (vm_compute; reflexivity).
  split; [exact H |].
  destruct (mark_document_upsert upper_ascii "lab-0001" "Acta notarial" true
              (Some "pendiente") sample_db_docs sample_record_docs H)
    as (_ & c' & Hs & Hi & _).
  exists c'. split; [exact Hs |]. rewrite Hi. vm_compute. reflexivity.
Defined.

Lemma capture_tools_commute_witness :
  sample_db !! upper_ascii "lab-0001" = Some sample_record
  /\ snd (capture_required_fields upper_ascii "lab-0001" "Bodegas S.A."
            "Auxiliar" "90" "semanal" "2023-01-10" "2024-05-03" "pago"
            (snd (capture_identity upper_ascii sample_ts "lab-0001" "00000000-0" "Ana"
                    "ana@x.com" sample_db)))
     = snd (capture_identity upper_ascii sample_ts "lab-0001" "00000000-0" "Ana"
              "ana@x.com"
              (snd (capture_required_fields upper_ascii "lab-0001" "Bodegas S.A."
                      "Auxiliar" "90" "semanal" "2023-01-10" "2024-05-03" "pago"
                      sample_db))).
Proof.
  assert (sample_db !! upper_ascii "lab-0001" = Some sample_record)
    as H by (vm_compute; reflexivity).
  split; [exact H |].
  exact (capture_tools_commute upper_ascii sample_ts "lab-0001" "00000000-0" "Ana"
           "ana@x.com" "Bodegas S.A." "Auxiliar" "90" "semanal" "2023-01-10"
           "2024-05-03" "pago" sample_db sample_record H).
Defined.

Lemma blank_narrative_needs_review_witness :
  lower_ascii "" = ""
  /\ all_ws ("  " +:+ nl +:+ " ") = true
  /\ route_operativa lower_ascii ("  " +:+ nl +:+ " ") = ROUTE_REVISAR
  /\ corresponde_a_laboral lower_ascii ("  " +:+ nl +:+ " ") = false.
Proof.
  split; [reflexivity |]. split; [reflexivity |].
  exact (blank_narrative_needs_review lower_ascii ("  " +:+ nl +:+ " ") eq_refl eq_refl).
Defined.

Lemma flags_in_fixed_order_witness :
  sample_db !! upper_ascii "lab-0001" = Some sample_record
  /\ exists c' flags,
      snd (validate_and_recheck upper_ascii lower_ascii "lab-0001" sample_db)
        !! upper_ascii "lab-0001" = Some c'
      /\ CaseData.banderas (CaseRecord.data c') = flags
      /\ dict_get "flags"
           (fst (validate_and_recheck upper_ascii lower_ascii "lab-0001" sample_db))
         = Some (VList (map VStr flags))
      /\ sublist flags (MISSING_FLAGS ++ [FLAG_PENAL])
      /\ NoDup flags
      /\ length flags <= 11.
Proof.
  assert (sample_db !! upper_ascii "lab-0001" = Some sample_record)
    as H by (vm_compute; reflexivity).
  split; [exact H |].
  exact (flags_in_fixed_order upper_ascii lower_ascii "lab-0001" sample_db
           sample_record H).
Defined.

Lemma each_flag_iff_field_missing_witness :
  sample_db !! upper_ascii "lab-0001" = Some sample_record
  /\ exists c',
      snd (validate_and_recheck upper_ascii lower_ascii "lab-0001" sample_db)
        !! upper_ascii "lab-0001" = Some c'
      /\ In "Falta DUI." (CaseData.banderas (CaseRecord.data c')).
Proof.
  assert (sample_db !! upper_ascii "lab-0001" = Some sample_record)
    as H by (vm_compute; reflexivity).
  split; [exact H |].
  destruct (each_flag_iff_field_missing upper_ascii lower_ascii "lab-0001" sample_db
              sample_record H) as (c' & Hc' & _ & Hdui & _).
  exists c'. split; [exact Hc' |]. apply Hdui. reflexivity.
Defined.

Lemma penal_flag_matches_route_witness :
  sample_db !! upper_ascii "lab-0001" = Some sample_record
  /\ exists c',
      snd (validate_and_recheck upper_ascii lower_ascii "lab-0001" sample_db)
        !! upper_ascii "lab-0001" = Some c'
      /\ (In FLAG_PENAL (CaseData.banderas (CaseRecord.data c'))
          <-> CaseData.jurisdiccion_probable (CaseRecord.data c') = Some ROUTE_PENAL)
      /\ (dict_get "corresponde_a_laboral_probable"
            (fst (validate_and_recheck upper_ascii lower_ascii "lab-0001" sample_db))
          = Some (VBool true)
          <-> CaseData.jurisdiccion_probable (CaseRecord.data c') = Some ROUTE_LABORAL).
Proof.
  assert (sample_db !! upper_ascii "lab-0001" = Some sample_record)
    as H by (vm_compute; reflexivity).
  split; [exact H |].
  exact (penal_flag_matches_route upper_ascii lower_ascii "lab-0001" sample_db
           sample_record H).
Defined.

Lemma no_flags_iff_complete_witness :
  sample_db !! upper_ascii "lab-0001" = Some sample_record
  /\ dict_get "flags"
       (fst (validate_and_recheck upper_ascii lower_ascii "lab-0001" sample_db))
     <> Some (VList []).
Proof.
  assert (sample_db !! upper_ascii "lab-0001" = Some sample_record)
    as H by (vm_compute; reflexivity).
  split; [exact H |].
  intros Hnil.
  apply (no_flags_iff_complete upper_ascii lower_ascii "lab-0001" sample_db
           sample_record H) in Hnil.
  destruct Hnil as [Hcap _]. discriminate Hcap.
Defined.

Lemma expediente_ignores_unlisted_documents_witness :
  sample_db !! upper_ascii "lab-0001" = Some sample_record
  /\ ~ In "Acta notarial" DOCUMENTOS_BASE
  /\ dict_get "expediente"
       (fst (generate_expediente upper_ascii "lab-0001"
               (snd (mark_document upper_ascii "lab-0001" "Acta notarial" true
                       (Some "pendiente") sample_db))))
     = dict_get "expediente" (fst (generate_expediente upper_ascii "lab-0001" sample_db)).
Proof.
  assert (sample_db !! upper_ascii "lab-0001" = Some sample_record)
    as H by (vm_compute; reflexivity).
  assert (~ In "Acta notarial" DOCUMENTOS_BASE) as Hn
    by (simpl; intuition discriminate).
  split; [exact H |]. split; [exact Hn |].
  exact (expediente_ignores_unlisted_documents upper_ascii "lab-0001" "Acta notarial"
           true (Some "pendiente") sample_db sample_record H Hn).
Defined.

Lemma expediente_opening_and_closing_witness :
  sample_db !! upper_ascii "lab-0001" = Some sample_record
  /\ exists text body c',
      dict_get "expediente" (fst (generate_expediente upper_ascii "lab-0001" sample_db))
      = Some (VStr text)
      /\ snd (generate_expediente upper_ascii "lab-0001" sample_db)
           !! upper_ascii "lab-0001" = Some c'
      /\ CaseRecord.expediente c' = Some text
      /\ text = "=== EXPEDIENTE (BORRADOR OPERATIVO) ===" +:+ nl
                +:+ "Case ID: " +:+ upper_ascii "lab-0001" +:+ nl
                +:+ body +:+ nl
                +:+ "Nota: revisión humana final obligatoria.".
Proof.
  assert (sample_db !! upper_ascii "lab-0001" = Some sample_record)
    as H by (vm_compute; reflexivity).
  split; [exact H |].
  exact (expediente_opening_and_closing upper_ascii "lab-0001" sample_db
           sample_record H).
Defined.

Lemma complete_capture_has_no_missing_flag_witness :
  has_narrative upper_ascii (Pull_story_from_general "lab-0002") = true
  /\ truthy (Some "00000000-0") && truthy (Some "Ana") && truthy (Some "ana@x.com")
     && truthy (Some "Taller S.A.") && truthy (Some "Operaria") && truthy (Some "400")
     && truthy (Some "mensual") && truthy (Some "2022-02-01")
     && truthy (Some "2024-06-15") && truthy (Some "reinstalo") = true
  /\ dict_get "flags"
       (fst (validate_and_recheck upper_ascii lower_ascii "lab-0002"
               (snd (capture_required_fields upper_ascii "lab-0002" "Taller S.A."
                       "Operaria" "400" "mensual" "2022-02-01" "2024-06-15" "reinstalo"
                       (snd (capture_identity upper_ascii sample_ts "lab-0002"
                               "00000000-0" "Ana" "ana@x.com"
                               (snd (pull_story_from_general upper_ascii sample_ts
                                       "lab-0002" sample_db))))))))
     = Some (VList []).
Proof.
  split; [reflexivity |]. split; [reflexivity |].
  destruct (complete_capture_has_no_missing_flag upper_ascii lower_ascii sample_ts
              "lab-0002" "00000000-0" "Ana" "ana@x.com" "Taller S.A." "Operaria"
              "400" "mensual" "2022-02-01" "2024-06-15" "reinstalo" sample_db
              eq_refl eq_refl) as [H | H].
  - exact H.
  - vm_compute in H. discriminate H.
Defined.
